(** * Routing and fusion core of the RAG + web-search assistant

    A shallow embedding of [agents/hybrid_agent.py], [agents/rag_agent.py],
    [agents/web_search_agent.py] and the parts of [utils/vector_store.py]
    they call, together with the properties stated for them.

    Modelling conventions.
    - A Python [str] is a [string]; one character is one code point below
      256.  [strip] and [lower] follow [str.strip()] and [str.lower()] on
      that range.
    - A Python [dict] used as a map is a [gmap] with string keys;
      [d.get(k, v)] is [default v (d !! k)] and [d[k] = v] is [<[k:=v]> d].
    - The vector store, the chat model and the search API are external.
      Each is a function of an abstract world state [W] that answers or
      raises and leaves a new world state; a run also yields the trace of
      the calls it made and their replies, so that "this service was not
      called" can be stated.
    - A Python exception is a value [exn] carrying its class and message;
      [try: ... except Exception as e:] is [try_except]. *)

From Stdlib Require Import ZArith Ascii DecimalString.
From stdpp Require Import base decidable option list gmap strings.

Local Open Scope Z_scope.

(** ** Strings *)

Module Str.

Definition newline : string := String (ascii_of_nat 10) EmptyString.

(** [str.isspace] on one character. *)
Definition isspace (c : ascii) : bool :=
  let n := nat_of_ascii c in
  ((9 <=? n)%nat && (n <=? 13)%nat)
  || ((28 <=? n)%nat && (n <=? 32)%nat)
  || (n =? 133)%nat || (n =? 160)%nat.

(** [str.lower] on one character: A-Z and the accented capitals
    192..222 (without the multiplication sign 215) move up by 32. *)
Definition lower_char (c : ascii) : ascii :=
  let n := nat_of_ascii c in
  if ((65 <=? n)%nat && (n <=? 90)%nat)
     || ((192 <=? n)%nat && (n <=? 222)%nat && negb (n =? 215)%nat)
  then ascii_of_nat (n + 32) else c.

Fixpoint lower (s : string) : string :=
  match s with
  | EmptyString => EmptyString
  | String c s' => String (lower_char c) (lower s')
  end.

Fixpoint lstrip (s : string) : string :=
  match s with
  | EmptyString => EmptyString
  | String c s' => if isspace c then lstrip s' else s
  end.

Fixpoint rstrip (s : string) : string :=
  match s with
  | EmptyString => EmptyString
  | String c s' =>
      match rstrip s' with
      | EmptyString => if isspace c then EmptyString else String c EmptyString
      | r => String c r
      end
  end.

Definition strip (s : string) : string := rstrip (lstrip s).

(** [sep.join(parts)] *)
Fixpoint join (sep : string) (parts : list string) : string :=
  match parts with
  | [] => EmptyString
  | [p] => p
  | p :: rest => p +:+ sep +:+ join sep rest
  end.

(** [str(i)] for a non-negative [int]. *)
Definition of_nat (n : nat) : string :=
  NilEmpty.string_of_uint (Nat.to_uint n).

(** Truth value of a string: non-empty. *)
Definition truthy (s : string) : bool :=
  match s with EmptyString => false | _ => true end.

(** [a or b] on strings. *)
Definition or (a b : string) : string := if truthy a then a else b.

End Str.

(** ** Exceptions and results *)

Inductive exn_class := ValueError | RequestException | OtherException.

Record exn := Exn { exn_cls : exn_class; exn_msg : string }.

Inductive outcome (A : Type) :=
| Returns (a : A)
| Raises (e : exn).
Arguments Returns {A} a.
Arguments Raises {A} e.

(** ** Data *)

(** [langchain_core.documents.Document] *)
Record Document := { page_content : string; metadata : gmap string string }.

(** The JSON object answered by the search API, restricted to the three
    keys the code reads.  [None] is an absent key. *)
Record SearchResults := {
  organic : option (list (gmap string string));
  answerBox : option (gmap string string);
  knowledgeGraph : option (gmap string string)
}.

(** The empty dict [{}] as search results. *)
Definition no_results : SearchResults :=
  {| organic := None; answerBox := None; knowledgeGraph := None |}.

(** Values stored in the result dicts of the three agents. *)
Inductive value :=
| VStr (s : string)
| VNames (l : list string)
| VDicts (l : list (gmap string string))
| VRaw (r : SearchResults).

Inductive Template :=
| RAG_PROMPT_TEMPLATE
| WEB_SEARCH_PROMPT_TEMPLATE
| HYBRID_PROMPT_TEMPLATE
| QUERY_ROUTER_PROMPT.

(** Calls that leave the process, each with the reply it got. *)
Inductive Event :=
| CollectionCount (reply : outcome Z)
| CollectionGet (reply : outcome (list (gmap string string)))
| SimilaritySearch (query : string) (k : Z) (reply : outcome (list Document))
| ChatOpenAI
| ChainInvoke (t : Template) (vars : gmap string value) (reply : outcome string)
| RequestsPost (q : string) (num : Z) (reply : outcome SearchResults).

(** config.py *)
Definition MAX_SEARCH_RESULTS : Z := 5.
Definition TOP_K_RESULTS : Z := 4.

(** ** The outside world *)

Class Runtime (W : Type) := {
  OPENAI_API_KEY : string;
  SERPER_API_KEY : string;
  (** [get_vector_store()._collection.count()] *)
  collection_count : W → outcome Z * W;
  (** the metadatas of [collection.get(include=["metadatas"])] *)
  collection_get : W → outcome (list (gmap string string)) * W;
  (** [vector_store.similarity_search(query, k=k)] *)
  vs_similarity_search : string → Z → W → outcome (list Document) * W;
  (** [(prompt | llm).invoke(vars).content] *)
  chain_invoke : Template → gmap string value → W → outcome string * W;
  (** [requests.post(...)], [raise_for_status()], [.json()] *)
  requests_post : string → Z → W → outcome SearchResults * W;
  (** [list(set(xs))]: every element once, in an order the model leaves open *)
  list_set : list string → list string;
  list_set_NoDup : ∀ xs, NoDup (list_set xs);
  list_set_elem : ∀ xs x, x ∈ list_set xs ↔ x ∈ xs
}.

(** ** The monad of the agents: world state, call trace, exceptions *)

(** What one run leaves behind: the value returned or the exception
    raised, the world afterwards, and the calls made, oldest first. *)
Record Ran (W A : Type) := Run {
  res : outcome A;
  after : W;
  trace : list Event
}.
Arguments Run {W A} res after trace.
Arguments res {W A} r.
Arguments after {W A} r.
Arguments trace {W A} r.

Section Monad.
Context {W : Type}.

Definition M (A : Type) : Type := W → Ran W A.

Definition ret {A} (a : A) : M A := λ w, Run (Returns a) w [].

Definition raise {A} (e : exn) : M A := λ w, Run (Raises e) w [].

Definition bind {A B} (m : M A) (k : A → M B) : M B :=
  λ w, let r := m w in
       match res r with
       | Returns a =>
           let r' := k a (after r) in
           Run (res r') (after r') (trace r ++ trace r')
       | Raises e => Run (Raises e) (after r) (trace r)
       end.

(** [try: m  except Exception as e: h e] *)
Definition try_except {A} (m : M A) (h : exn → M A) : M A :=
  λ w, let r := m w in
       match res r with
       | Returns a => r
       | Raises e =>
           let r' := h e (after r) in
           Run (res r') (after r') (trace r ++ trace r')
       end.

(** One call to an external service; [ev] records it with its reply. *)
Definition call {A} (ev : outcome A → Event) (svc : W → outcome A * W) : M A :=
  λ w, let (r, w') := svc w in Run r w' [ev r].

Definition log_event (ev : Event) : M unit :=
  λ w, Run (Returns tt) w [ev].
End Monad.
Arguments M W A : clear implicits.

Notation "x <- m ;; k" := (bind m (λ x, k))
  (at level 100, m at next level, right associativity).
Notation "m ;;; k" := (bind m (λ _, k))
  (at level 100, right associativity).

(** ** utils/vector_store.py *)

Section VectorStore.
Context {W : Type} `{!Runtime W}.

Definition similarity_search (query : string) (k : Z) : M W (list Document) :=
  call (SimilaritySearch query k) (vs_similarity_search query k).

Definition get_document_count : M W Z :=
  try_except (call CollectionCount collection_count) (λ _, ret 0).

Definition get_all_sources : M W (list string) :=
  try_except
    (metadatas <- call CollectionGet collection_get ;;
     ret (list_set (omap (λ metadata : gmap string string, metadata !! "source") metadatas)))
    (λ _, ret []).
End VectorStore.

(** ** get_llm, the same in the three agents *)

Section Llm.
Context {W : Type} `{!Runtime W}.

Definition get_llm : M W unit :=
  if negb (Str.truthy OPENAI_API_KEY)
  then raise (Exn ValueError "OPENAI_API_KEY is not set. Please set it in your .env file.")
  else log_event ChatOpenAI.

(** [(prompt | llm).invoke(vars)], then [.content] *)
Definition invoke (t : Template) (vars : gmap string value) : M W string :=
  call (ChainInvoke t vars) (chain_invoke t vars).
End Llm.

(** ** agents/rag_agent.py *)

Section RagAgent.
Context {W : Type} `{!Runtime W}.

Definition doc_source (doc : Document) : string :=
  default "Unknown" (metadata doc !! "source").

Definition format_context (documents : list Document) : string :=
  Str.join Str.newline
    (imap (λ i doc,
         "[Document " +:+ Str.of_nat (S i) +:+ " - Source: " +:+ doc_source doc +:+ "]"
         +:+ Str.newline +:+ page_content doc +:+ Str.newline)
       documents).

Definition query_rag (question : string) (k : Z) : M W (gmap string value) :=
  doc_count <- get_document_count ;;
  if doc_count =? 0 then
    ret {[ "answer" := VStr "No documents have been uploaded yet. Please upload some documents first to use RAG mode.";
           "sources" := VNames [];
           "context" := VStr EmptyString ]}
  else
    retrieved_docs <- similarity_search question k ;;
    match retrieved_docs with
    | [] =>
        ret {[ "answer" := VStr "I couldn't find any relevant information in the uploaded documents to answer your question.";
               "sources" := VNames [];
               "context" := VStr EmptyString ]}
    | _ =>
        let context := format_context retrieved_docs in
        get_llm ;;;
        response <- invoke RAG_PROMPT_TEMPLATE
                      {[ "context" := VStr context; "question" := VStr question ]} ;;
        let sources := list_set (doc_source <$> retrieved_docs) in
        ret {[ "answer" := VStr response;
               "sources" := VNames sources;
               "context" := VStr context ]}
    end.

End RagAgent.

(** ** agents/web_search_agent.py *)

Definition dict_truthy (d : option (gmap string string)) : bool :=
  match d with
  | Some m => negb (bool_decide (m = ∅))
  | None => false
  end.

Definition format_organic (i : nat) (result : gmap string string) : string :=
  let title := default "No title" (result !! "title") in
  let snippet := default "No description" (result !! "snippet") in
  let link := default EmptyString (result !! "link") in
  "[Result " +:+ Str.of_nat i +:+ "]" +:+ Str.newline
  +:+ "Title: " +:+ title +:+ Str.newline
  +:+ "Snippet: " +:+ snippet +:+ Str.newline
  +:+ "URL: " +:+ link +:+ Str.newline.

(** [answer_box.get("answer") or answer_box.get("snippet", empty)], with
    the empty string as default. *)
Definition featured_answer (answer_box : gmap string string) : string :=
  let fallback := default EmptyString (answer_box !! "snippet") in
  match answer_box !! "answer" with
  | Some a => Str.or a fallback
  | None => fallback
  end.

Definition format_featured (answer : string) : string :=
  "[Featured Answer]" +:+ Str.newline +:+ answer +:+ Str.newline.

Definition format_knowledge (title description : string) : string :=
  "[Knowledge Graph]" +:+ Str.newline
  +:+ "Title: " +:+ title +:+ Str.newline
  +:+ "Description: " +:+ description +:+ Str.newline.

(** The list [formatted_parts] when [format_search_results] reaches its
    [return]. *)
Definition formatted_parts (results : SearchResults) : list string :=
  let parts := imap (λ i result, format_organic (S i) result)
                    (default [] (organic results)) in
  let parts :=
    if dict_truthy (answerBox results) then
      let answer := featured_answer (default ∅ (answerBox results)) in
      if Str.truthy answer then format_featured answer :: parts else parts
    else parts in
  if dict_truthy (knowledgeGraph results) then
    let kg := default ∅ (knowledgeGraph results) in
    let title := default EmptyString (kg !! "title") in
    let description := default EmptyString (kg !! "description") in
    if Str.truthy title || Str.truthy description
    then format_knowledge title description :: parts else parts
  else parts.

Definition NO_RESULTS : string := "No search results found.".

Definition format_search_results (results : SearchResults) : string :=
  match formatted_parts results with
  | [] => NO_RESULTS
  | parts => Str.join Str.newline parts
  end.

Definition extract_sources (results : SearchResults) : list (gmap string string) :=
  (λ result : gmap string string,
     ({[ "title" := default "Unknown" (result !! "title");
         "url" := default EmptyString (result !! "link") ]} : gmap string string))
  <$> default [] (organic results).

Section WebSearchAgent.
Context {W : Type} `{!Runtime W}.

Definition search_serper (query : string) (num_results : Z) : M W SearchResults :=
  if negb (Str.truthy SERPER_API_KEY)
  then raise (Exn ValueError "SERPER_API_KEY is not set. Please set it in your .env file.")
  else
    try_except (call (RequestsPost query num_results) (requests_post query num_results))
      (λ e, match exn_cls e with
            | RequestException =>
                raise (Exn OtherException ("Serper API request failed: " +:+ exn_msg e))
            | _ => raise e
            end).

Definition search_web (question : string) : M W (gmap string value) :=
  search_results <- search_serper question MAX_SEARCH_RESULTS ;;
  let formatted_results := format_search_results search_results in
  if String.eqb formatted_results NO_RESULTS then
    ret {[ "answer" := VStr "I couldn't find any relevant web search results for your query.";
           "sources" := VDicts [];
           "raw_results" := VRaw search_results ]}
  else
    get_llm ;;;
    response <- invoke WEB_SEARCH_PROMPT_TEMPLATE
                  {[ "search_results" := VStr formatted_results; "question" := VStr question ]} ;;
    let sources := extract_sources search_results in
    ret {[ "answer" := VStr response;
           "sources" := VDicts sources;
           "raw_results" := VRaw search_results ]}.
End WebSearchAgent.

(** ** agents/hybrid_agent.py *)

Section HybridAgent.
Context {W : Type} `{!Runtime W}.

Definition route_query (question : string) : M W string :=
  doc_count <- get_document_count ;;
  let has_documents := 0 <? doc_count in
  sources <- (if has_documents then get_all_sources else ret []) ;;
  if negb has_documents then ret "web"
  else
    get_llm ;;;
    response <- invoke QUERY_ROUTER_PROMPT
                  {[ "question" := VStr question;
                     "has_documents" := VStr (if has_documents then "Yes" else "No");
                     "document_sources" :=
                       VStr (match sources with
                             | [] => "None"
                             | _ => Str.join ", " sources
                             end) ]} ;;
    let route := Str.lower (Str.strip response) in
    if bool_decide (route ∈ ["documents"; "web"; "hybrid"])
    then ret route
    else ret "hybrid".

(** [for source in v] where [v] holds source names; no other shape is
    ever stored under ["sources"] by [query_rag]. *)
Definition iter_names (v : value) : M W (list string) :=
  match v with
  | VNames l => ret l
  | _ => raise (Exn OtherException "TypeError")
  end.

(** [for source in v] where [v] holds title/url dicts. *)
Definition iter_dicts (v : value) : M W (list (gmap string string)) :=
  match v with
  | VDicts l => ret l
  | _ => raise (Exn OtherException "TypeError")
  end.

Definition document_entry (source : string) : gmap string string :=
  {[ "type" := "document"; "name" := source ]}.

Definition web_entry (source : gmap string string) : gmap string string :=
  {[ "type" := "web";
     "title" := default EmptyString (source !! "title");
     "url" := default EmptyString (source !! "url") ]}.

(** The part of [query_hybrid] below the comment "Hybrid mode: combine
    both". *)
Definition hybrid_mode (question : string) (doc_count : Z) : M W (gmap string value) :=
  let rag_result : gmap string value :=
    {[ "answer" := VStr EmptyString; "sources" := VNames []; "context" := VStr EmptyString ]} in
  let web_result : gmap string value :=
    {[ "answer" := VStr EmptyString; "sources" := VDicts []; "raw_results" := VRaw no_results ]} in
  rag_result <-
    (if 0 <? doc_count then
       try_except (query_rag question TOP_K_RESULTS)
         (λ e, ret (<["context" := VStr ("Error retrieving from documents: " +:+ exn_msg e)]>
                      rag_result))
     else ret rag_result) ;;
  web_result <-
    try_except (search_web question)
      (λ e, ret (<["answer" := VStr ("Error searching web: " +:+ exn_msg e)]> web_result)) ;;
  let rag_context := default (VStr "No document context available.") (rag_result !! "context") in
  let web_context := default (VStr "No web search results available.") (web_result !! "answer") in
  get_llm ;;;
  response <- invoke HYBRID_PROMPT_TEMPLATE
                {[ "rag_context" := rag_context;
                   "web_context" := web_context;
                   "question" := VStr question ]} ;;
  doc_sources <- iter_names (default (VNames []) (rag_result !! "sources")) ;;
  web_sources <- iter_dicts (default (VDicts []) (web_result !! "sources")) ;;
  let all_sources := (document_entry <$> doc_sources) ++ (web_entry <$> web_sources) in
  ret {[ "answer" := VStr response;
         "sources" := VDicts all_sources;
         "mode" := VStr "hybrid";
         "rag_context" := rag_context;
         "web_results" := default (VRaw no_results) (web_result !! "raw_results") ]}.

Definition query_hybrid (question : string) (auto_route : bool) : M W (gmap string value) :=
  doc_count <- get_document_count ;;
  if auto_route then
    route <- route_query question ;;
    if String.eqb route "documents" then
      result <- query_rag question TOP_K_RESULTS ;;
      ret (<["mode" := VStr "documents"]> result)
    else if String.eqb route "web" then
      result <- search_web question ;;
      ret (<["mode" := VStr "web"]> result)
    else hybrid_mode question doc_count
  else hybrid_mode question doc_count.
End HybridAgent.

(** * Properties *)

(** The calls that construct or invoke the language model. *)
Definition is_llm_call (ev : Event) : bool :=
  match ev with
  | ChatOpenAI | ChainInvoke _ _ _ => true
  | _ => false
  end.

Definition no_llm_call (t : list Event) : Prop :=
  Forall (λ ev, is_llm_call ev = false) t.

Definition is_similarity_search (ev : Event) : bool :=
  match ev with
  | SimilaritySearch _ _ _ => true
  | _ => false
  end.

(** The three labels [route_query] accepts. *)
Definition ROUTES : list string := ["documents"; "web"; "hybrid"].

Section Running.
Context {W : Type} `{!Runtime W}.

Lemma bind_returns {A B} (m : M W A) (k : A → M W B) w a :
  res (m w) = Returns a →
  bind m k w = Run (res (k a (after (m w)))) (after (k a (after (m w))))
                   (trace (m w) ++ trace (k a (after (m w)))).
Proof. intros Hm. unfold bind. now rewrite Hm. Qed.

Lemma bind_raises {A B} (m : M W A) (k : A → M W B) w e :
  res (m w) = Raises e →
  bind m k w = Run (Raises e) (after (m w)) (trace (m w)).
Proof. intros Hm. unfold bind. now rewrite Hm. Qed.

Lemma call_run {A} (ev : outcome A → Event) (svc : W → outcome A * W) w :
  call ev svc w = Run (svc w).1 (svc w).2 [ev (svc w).1].
Proof. unfold call. now destruct (svc w). Qed.

(** [get_document_count] never raises: a failing store counts as empty. *)
Definition count_of (r : outcome Z) : Z :=
  match r with Returns n => n | Raises _ => 0 end.

Lemma get_document_count_run w :
  get_document_count w =
    Run (Returns (count_of (collection_count w).1)) (collection_count w).2
        [CollectionCount (collection_count w).1].
Proof.
  unfold get_document_count, try_except. rewrite call_run. simpl.
  now destruct (collection_count w).1.
Qed.

Lemma get_all_sources_returns w :
  ∃ sources, res (get_all_sources w) = Returns sources ∧
             trace (get_all_sources w) = [CollectionGet (collection_get w).1].
Proof.
  unfold get_all_sources, try_except, bind. rewrite call_run. simpl.
  destruct (collection_get w).1; simpl; eauto.
Qed.

Lemma get_llm_run w :
  get_llm w =
    if Str.truthy OPENAI_API_KEY then Run (Returns tt) w [ChatOpenAI]
    else Run (Raises (Exn ValueError "OPENAI_API_KEY is not set. Please set it in your .env file.")) w [].
Proof. unfold get_llm. now destruct (Str.truthy OPENAI_API_KEY). Qed.

Lemma invoke_run t vars w :
  invoke t vars w =
    Run (chain_invoke t vars w).1 (chain_invoke t vars w).2
        [ChainInvoke t vars (chain_invoke t vars w).1].
Proof. apply call_run. Qed.

End Running.

(** Membership of an event in an explicit trace, case by case. *)
Ltac trace_cases H :=
  repeat (apply elem_of_cons in H as [H|H]);
  try (apply elem_of_nil in H; contradiction);
  try discriminate H.

Ltac case_reply svc :=
  match goal with
  | |- context [svc ?a ?b ?c] =>
      let r := fresh "reply" in
      destruct (svc a b c).1 as [r|r] eqn:?; simpl
  end.

Section Router.
Context {W : Type} `{!Runtime W}.

(** C1.  Whatever the question, when the vector store counts zero
    documents [route_query] returns "web"; the run consists of the count
    alone, so no language model is constructed or invoked. *)
Theorem route_query_no_documents (question : string) (w : W) :
  res (get_document_count w) = Returns 0 →
  res (route_query question w) = Returns "web"
  ∧ trace (route_query question w) = trace (get_document_count w)
  ∧ no_llm_call (trace (route_query question w)).
Proof.
  intros Hcount. unfold route_query.
  rewrite (bind_returns _ _ _ _ Hcount). simpl.
  rewrite get_document_count_run. simpl.
  repeat split. repeat constructor.
Qed.

(** C2.  When the classification call of a run answered [response], the
    run returns the trimmed, lowercased response if that is one of the
    three labels, and "hybrid" for every other response. *)
Theorem route_query_validates (question : string) (w : W)
    (vars : gmap string value) (response : string) :
  ChainInvoke QUERY_ROUTER_PROMPT vars (Returns response) ∈ trace (route_query question w) →
  let route := Str.lower (Str.strip response) in
  (route ∈ ROUTES → res (route_query question w) = Returns route)
  ∧ (route ∉ ROUTES → res (route_query question w) = Returns "hybrid").
Proof.
  unfold route_query, bind. rewrite get_document_count_run. simpl.
  destruct (0 <? count_of (collection_count w).1); simpl.
  2: { intros Hin. trace_cases Hin. }
  destruct (get_all_sources_returns (collection_count w).2) as (sources & -> & ->).
  simpl. rewrite get_llm_run.
  destruct (Str.truthy OPENAI_API_KEY); simpl.
  2: { intros Hin. trace_cases Hin. }
  rewrite invoke_run. simpl.
  case_reply chain_invoke; intros Hin.
  - assert (reply = response) as ->.
    { destruct (bool_decide _); simpl in Hin; trace_cases Hin; congruence. }
    unfold ROUTES. split; intros Hroute.
    + now rewrite bool_decide_eq_true_2.
    + now rewrite bool_decide_eq_false_2.
  - trace_cases Hin.
Qed.

End Router.

(** ** Formatting of search results *)

(** The featured answer of a response, when there is a non-empty one. *)
Definition usable_answer (results : SearchResults) : option string :=
  box ← answerBox results;
  let answer := featured_answer box in
  if Str.truthy answer then Some answer else None.

(** Title and description of the knowledge graph of a response, when at
    least one of the two is non-empty. *)
Definition usable_knowledge (results : SearchResults) : option (string * string) :=
  kg ← knowledgeGraph results;
  let title := default EmptyString (kg !! "title") in
  let description := default EmptyString (kg !! "description") in
  if Str.truthy title || Str.truthy description then Some (title, description) else None.

Definition knowledge_block (results : SearchResults) : list string :=
  match usable_knowledge results with
  | Some (title, description) => [format_knowledge title description]
  | None => []
  end.

Definition featured_block (results : SearchResults) : list string :=
  match usable_answer results with
  | Some answer => [format_featured answer]
  | None => []
  end.

Definition organic_blocks (results : SearchResults) : list string :=
  imap (λ i result, format_organic (S i) result) (default [] (organic results)).

Lemma featured_answer_empty : featured_answer ∅ = EmptyString.
Proof. reflexivity. Qed.

Lemma formatted_parts_layout (results : SearchResults) :
  formatted_parts results =
    knowledge_block results ++ featured_block results ++ organic_blocks results.
Proof.
  assert (Hkg : ∀ kg : gmap string string,
             negb (bool_decide (kg = ∅)) = false →
             Str.truthy (default EmptyString (kg !! "title"))
             || Str.truthy (default EmptyString (kg !! "description")) = false).
  { intros kg Hkg. apply negb_false_iff, bool_decide_eq_true_1 in Hkg. now subst. }
  assert (Hbox : ∀ box : gmap string string,
             negb (bool_decide (box = ∅)) = false →
             Str.truthy (featured_answer box) = false).
  { intros box Hbox. apply negb_false_iff, bool_decide_eq_true_1 in Hbox. now subst. }
  unfold formatted_parts, knowledge_block, featured_block, organic_blocks,
    usable_knowledge, usable_answer, dict_truthy.
  destruct results as [org [box|] [kg|]]; simpl;
    repeat match goal with
      | |- context [negb (bool_decide (?m = ∅))] =>
          let E := fresh "E" in
          destruct (negb (bool_decide (m = ∅))) eqn:E;
          [| first [rewrite (Hkg _ E) | rewrite (Hbox _ E)]]
      | |- context [if ?b then _ else _] => destruct b
      end; reflexivity.
Qed.

Definition starts_with (c : ascii) (s : string) : Prop :=
  ∃ s', s = String c s'.

Lemma join_starts_with (c : ascii) (sep p : string) (rest : list string) :
  starts_with c p → starts_with c (Str.join sep (p :: rest)).
Proof.
  intros [p' ->]. destruct rest as [|q rest].
  - now exists p'.
  - eexists. reflexivity.
Qed.

Lemma knowledge_block_bracket (results : SearchResults) :
  Forall (starts_with "[") (knowledge_block results).
Proof.
  unfold knowledge_block. destruct (usable_knowledge results) as [[title description]|];
    repeat constructor. eexists. reflexivity.
Qed.

Lemma featured_block_bracket (results : SearchResults) :
  Forall (starts_with "[") (featured_block results).
Proof.
  unfold featured_block. destruct (usable_answer results);
    repeat constructor. eexists. reflexivity.
Qed.

Lemma organic_blocks_bracket (results : SearchResults) :
  Forall (starts_with "[") (organic_blocks results).
Proof.
  unfold organic_blocks. apply Forall_lookup_2. intros i block Hi.
  rewrite list_lookup_imap in Hi.
  destruct (default [] (organic results) !! i); simplify_eq/=.
  eexists. reflexivity.
Qed.

Lemma formatted_parts_bracket (results : SearchResults) :
  Forall (starts_with "[") (formatted_parts results).
Proof.
  rewrite formatted_parts_layout. repeat apply Forall_app_2;
    auto using knowledge_block_bracket, featured_block_bracket, organic_blocks_bracket.
Qed.

Lemma format_search_results_sentinel (results : SearchResults) :
  format_search_results results = NO_RESULTS ↔ formatted_parts results = [].
Proof.
  unfold format_search_results. split.
  - pose proof (formatted_parts_bracket results) as Hb.
    destruct (formatted_parts results) as [|p rest]; [done|].
    intros Heq. apply Forall_cons_1 in Hb as [Hp _].
    destruct (join_starts_with _ Str.newline _ rest Hp) as [s' Hs'].
    rewrite Hs' in Heq. discriminate.
  - now intros ->.
Qed.

Lemma organic_blocks_nil (results : SearchResults) :
  organic_blocks results = [] ↔ default [] (organic results) = [].
Proof.
  unfold organic_blocks. destruct (default [] (organic results)); simpl; split; done.
Qed.

Lemma format_search_results_empty (results : SearchResults) :
  format_search_results results = NO_RESULTS ↔
    default [] (organic results) = []
    ∧ usable_answer results = None
    ∧ usable_knowledge results = None.
Proof.
  rewrite format_search_results_sentinel, formatted_parts_layout.
  rewrite !app_nil, organic_blocks_nil.
  unfold knowledge_block, featured_block.
  destruct (usable_knowledge results) as [[title description]|],
    (usable_answer results); simpl; intuition congruence.
Qed.

(** The knowledge-graph block, read off the response: there is one
    unless title and description are both missing or empty. *)
Lemma knowledge_block_fields (results : SearchResults) :
  let kg := default ∅ (knowledgeGraph results) in
  let title := default EmptyString (kg !! "title") in
  let description := default EmptyString (kg !! "description") in
  (usable_knowledge results = None ↔ title = EmptyString ∧ description = EmptyString)
  ∧ knowledge_block results
      = match title, description with
        | EmptyString, EmptyString => []
        | _, _ => [ "[Knowledge Graph]" +:+ String "010" EmptyString
                    +:+ "Title: " +:+ title +:+ String "010" EmptyString
                    +:+ "Description: " +:+ description +:+ String "010" EmptyString ]
        end.
Proof.
  unfold knowledge_block, usable_knowledge.
  destruct (knowledgeGraph results) as [kg|]; simpl.
  - destruct (default EmptyString (kg !! "title")),
      (default EmptyString (kg !! "description")); simpl;
      (split; [split; [try discriminate; done | intros [? ?]; try discriminate; done]
              | reflexivity]).
  - rewrite !lookup_empty. simpl. done.
Qed.

(** The featured block, read off the response: the answer of the answer
    box, its snippet when the answer is missing or empty, and no block
    when that is empty too. *)
Lemma featured_block_fields (results : SearchResults) :
  let box := default ∅ (answerBox results) in
  let answer := match box !! "answer" with
                | Some (String c rest) => String c rest
                | _ => default EmptyString (box !! "snippet")
                end in
  (usable_answer results = None ↔ answer = EmptyString)
  ∧ featured_block results
      = match answer with
        | EmptyString => []
        | _ => [ "[Featured Answer]" +:+ String "010" EmptyString
                 +:+ answer +:+ String "010" EmptyString ]
        end.
Proof.
  unfold featured_block, usable_answer, featured_answer.
  destruct (answerBox results) as [box|]; simpl.
  - destruct (box !! "answer") as [[|c rest]|]; simpl;
      try destruct (default EmptyString (box !! "snippet")); simpl;
      (split; [split; [try discriminate; done | try discriminate; done] | reflexivity]).
  - rewrite !lookup_empty. simpl. done.
Qed.

(** C9.  The formatted context, read off the three keys of the response.
    It is the newline-join of: the knowledge-graph block, when title or
    description is non-empty; then the featured block, when the answer
    box has a non-empty answer or else a non-empty snippet; then one
    block per organic result, numbered in decimal from 1 in the order of
    the response, with "No title", "No description" and the empty string
    for a missing title, snippet and link.  And it is the sentinel
    exactly when there is no organic result, no such featured answer and
    no such title or description. *)
Theorem format_search_results_layout (results : SearchResults) :
  let nl := String "010" EmptyString in
  let box := default ∅ (answerBox results) in
  let answer := match box !! "answer" with
                | Some (String c rest) => String c rest
                | _ => default EmptyString (box !! "snippet")
                end in
  let kg := default ∅ (knowledgeGraph results) in
  let title := default EmptyString (kg !! "title") in
  let description := default EmptyString (kg !! "description") in
  let knowledge :=
    match title, description with
    | EmptyString, EmptyString => []
    | _, _ => [ "[Knowledge Graph]" +:+ nl +:+ "Title: " +:+ title +:+ nl
                +:+ "Description: " +:+ description +:+ nl ]
    end in
  let featured :=
    match answer with
    | EmptyString => []
    | _ => [ "[Featured Answer]" +:+ nl +:+ answer +:+ nl ]
    end in
  let numbered :=
    imap (λ i (result : gmap string string),
            "[Result " +:+ NilEmpty.string_of_uint (Nat.to_uint (S i)) +:+ "]" +:+ nl
            +:+ "Title: " +:+ default "No title" (result !! "title") +:+ nl
            +:+ "Snippet: " +:+ default "No description" (result !! "snippet") +:+ nl
            +:+ "URL: " +:+ default EmptyString (result !! "link") +:+ nl)
         (default [] (organic results)) in
  format_search_results results
    = match knowledge ++ featured ++ numbered with
      | [] => "No search results found."
      | parts => Str.join nl parts
      end
  ∧ (format_search_results results = "No search results found." ↔
       default [] (organic results) = []
       ∧ answer = EmptyString
       ∧ title = EmptyString ∧ description = EmptyString).
Proof.
  intros nl box answer kg title description knowledge featured numbered.
  destruct (knowledge_block_fields results) as [Hkg Hknowledge].
  destruct (featured_block_fields results) as [Hbox Hfeatured].
  split.
  - unfold format_search_results.
    rewrite formatted_parts_layout, Hknowledge, Hfeatured.
    change (organic_blocks results) with numbered.
    now destruct (_ ++ _).
  - change "No search results found." with NO_RESULTS.
    rewrite format_search_results_empty, Hkg, Hbox. done.
Qed.

(** ** The web search agent *)

Section WebSearch.
Context {W : Type} `{!Runtime W}.

(** The exception [search_serper] raises for a failed request. *)
Definition serper_failure (e : exn) : exn :=
  match exn_cls e with
  | RequestException => Exn OtherException ("Serper API request failed: " +:+ exn_msg e)
  | _ => e
  end.

Lemma search_serper_run (query : string) (num : Z) (w : W) :
  search_serper query num w =
    if Str.truthy SERPER_API_KEY then
      Run (match (requests_post query num w).1 with
           | Returns results => Returns results
           | Raises e => Raises (serper_failure e)
           end)
          (requests_post query num w).2
          [RequestsPost query num (requests_post query num w).1]
    else Run (Raises (Exn ValueError "SERPER_API_KEY is not set. Please set it in your .env file.")) w [].
Proof.
  unfold search_serper, try_except, serper_failure.
  destruct (Str.truthy SERPER_API_KEY); simpl; [|done].
  rewrite call_run. simpl.
  destruct (requests_post query num w).1 as [results|e]; simpl; [done|].
  destruct (exn_cls e); simpl; now rewrite ?app_nil_r.
Qed.

Definition NO_RESULTS_ANSWER : string :=
  "I couldn't find any relevant web search results for your query.".

(** C8.  When the search of a run answered with a response whose
    formatted context is the sentinel, [search_web] returns the fixed
    fallback answer with an empty sources list, and the run neither
    constructs nor invokes the language model. *)
Theorem search_web_no_results (question : string) (w : W)
    (q : string) (num : Z) (results : SearchResults) :
  RequestsPost q num (Returns results) ∈ trace (search_web question w) →
  format_search_results results = NO_RESULTS →
  res (search_web question w)
    = Returns {[ "answer" := VStr NO_RESULTS_ANSWER;
                 "sources" := VDicts [];
                 "raw_results" := VRaw results ]}
  ∧ no_llm_call (trace (search_web question w)).
Proof.
  unfold search_web, bind. rewrite search_serper_run.
  destruct (Str.truthy SERPER_API_KEY); simpl.
  2: { intros Hin. trace_cases Hin. }
  destruct (requests_post question MAX_SEARCH_RESULTS w).1 as [found|e] eqn:Hreply; simpl.
  2: { intros Hin. trace_cases Hin. }
  destruct (String.eqb (format_search_results found) NO_RESULTS) eqn:Hfmt; simpl.
  - intros Hin _. trace_cases Hin. simplify_eq. split; [done|]. repeat constructor.
  - intros Hin Hsentinel. exfalso.
    rewrite get_llm_run in Hin. apply String.eqb_neq in Hfmt.
    destruct (Str.truthy OPENAI_API_KEY); simpl in Hin.
    + rewrite invoke_run in Hin. simpl in Hin.
      destruct (chain_invoke _ _ _).1; simpl in Hin; trace_cases Hin; simplify_eq; done.
    + trace_cases Hin; simplify_eq; done.
Qed.

(** C10.  When the search of a run answered with no organic result but
    with a usable featured answer or knowledge graph, and a model
    credential is configured, the formatted context is not the sentinel,
    generation is invoked on it, and the answer it gives is returned with
    an empty sources list. *)
Theorem search_web_answer_without_sources (question : string) (w : W)
    (q : string) (num : Z) (results : SearchResults) :
  RequestsPost q num (Returns results) ∈ trace (search_web question w) →
  default [] (organic results) = [] →
  is_Some (usable_answer results) ∨ is_Some (usable_knowledge results) →
  Str.truthy OPENAI_API_KEY = true →
  format_search_results results ≠ NO_RESULTS
  ∧ ∃ reply,
      ChainInvoke WEB_SEARCH_PROMPT_TEMPLATE
        {[ "search_results" := VStr (format_search_results results);
           "question" := VStr question ]} reply
        ∈ trace (search_web question w)
      ∧ res (search_web question w)
          = match reply with
            | Returns answer =>
                Returns {[ "answer" := VStr answer;
                           "sources" := VDicts [];
                           "raw_results" := VRaw results ]}
            | Raises e => Raises e
            end.
Proof.
  intros Hin Horganic Hblock Hkey.
  assert (Hfmt : format_search_results results ≠ NO_RESULTS).
  { intros Hs. apply format_search_results_empty in Hs as (_ & Ha & Hk).
    rewrite Ha, Hk in Hblock. destruct Hblock as [[? ?]|[? ?]]; discriminate. }
  split; [done|]. revert Hin.
  unfold search_web, bind. rewrite search_serper_run.
  destruct (Str.truthy SERPER_API_KEY); simpl.
  2: { intros Hin. trace_cases Hin. }
  destruct (requests_post question MAX_SEARCH_RESULTS w).1 as [found|e] eqn:Hreply; simpl.
  2: { intros Hin. trace_cases Hin. }
  intros Hin.
  assert (found = results) as ->.
  { destruct (String.eqb _ _); simpl in Hin.
    - trace_cases Hin. congruence.
    - rewrite get_llm_run, Hkey in Hin. simpl in Hin. rewrite invoke_run in Hin.
      destruct (chain_invoke _ _ _).1; simpl in Hin; trace_cases Hin; congruence. }
  clear Hin. apply String.eqb_neq in Hfmt. rewrite Hfmt. simpl.
  rewrite get_llm_run, Hkey. simpl. rewrite invoke_run. simpl.
  match goal with
  | |- context [chain_invoke ?t ?vars ?w'] => exists (chain_invoke t vars w').1
  end.
  destruct (chain_invoke _ _ _).1; simpl; (split; [do 2 right; left|]); try done.
  unfold extract_sources. now rewrite Horganic.
Qed.

End WebSearch.

(** ** The document agent *)

Definition NO_DOCUMENTS_ANSWER : string :=
  "No documents have been uploaded yet. Please upload some documents first to use RAG mode.".

Definition NOTHING_RELEVANT_ANSWER : string :=
  "I couldn't find any relevant information in the uploaded documents to answer your question.".

Definition no_document_search (t : list Event) : Prop :=
  Forall (λ ev, is_similarity_search ev = false) t.

Section Rag.
Context {W : Type} `{!Runtime W}.

Lemma similarity_search_run (query : string) (k : Z) (w : W) :
  similarity_search query k w =
    Run (vs_similarity_search query k w).1 (vs_similarity_search query k w).2
        [SimilaritySearch query k (vs_similarity_search query k w).1].
Proof. apply call_run. Qed.

(** C7.  On an empty index [query_rag] returns the fixed "no documents
    uploaded" answer with no sources and an empty context, and its run is
    the count alone: no similarity search, no generation.  When the
    similarity search of a run answered with no document, it returns the
    other fixed answer, again without constructing or invoking the
    model. *)
Theorem query_rag_fallbacks (question : string) (k : Z) (w : W) :
  (res (get_document_count w) = Returns 0 →
     res (query_rag question k w)
       = Returns {[ "answer" := VStr NO_DOCUMENTS_ANSWER;
                    "sources" := VNames [];
                    "context" := VStr EmptyString ]}
     ∧ trace (query_rag question k w) = trace (get_document_count w)
     ∧ no_document_search (trace (query_rag question k w))
     ∧ no_llm_call (trace (query_rag question k w)))
  ∧ (∀ q n, SimilaritySearch q n (Returns []) ∈ trace (query_rag question k w) →
     res (query_rag question k w)
       = Returns {[ "answer" := VStr NOTHING_RELEVANT_ANSWER;
                    "sources" := VNames [];
                    "context" := VStr EmptyString ]}
     ∧ no_llm_call (trace (query_rag question k w))).
Proof.
  split.
  - intros Hcount. unfold query_rag.
    rewrite (bind_returns _ _ _ _ Hcount). simpl.
    rewrite get_document_count_run. simpl.
    repeat split; repeat constructor.
  - intros q n. unfold query_rag, bind. rewrite get_document_count_run. simpl.
    destruct (count_of (collection_count w).1 =? 0); simpl.
    { intros Hin. trace_cases Hin. }
    rewrite similarity_search_run. simpl.
    destruct (vs_similarity_search _ _ _).1 as [[|doc docs]|e] eqn:Hdocs; simpl.
    + intros _. split; [done|]. repeat constructor.
    + rewrite get_llm_run. destruct (Str.truthy OPENAI_API_KEY); simpl.
      * rewrite invoke_run. simpl.
        destruct (chain_invoke _ _ _).1; simpl; intros Hin; trace_cases Hin.
      * intros Hin. trace_cases Hin.
    + intros Hin. trace_cases Hin.
Qed.

End Rag.

(** ** What a returned result rests on *)

Section Grounding.
Context {W : Type} `{!Runtime W}.

Lemma list_set_nil : list_set [] = [].
Proof.
  destruct (list_set []) as [|x xs] eqn:E; [done|].
  assert (x ∈ list_set []) as Hx by (rewrite E; left).
  rewrite list_set_elem in Hx. now apply elem_of_nil in Hx.
Qed.

Lemma list_set_length (xs : list string) :
  length (list_set xs) = size (list_to_set xs : gset string).
Proof.
  unfold size, set_size. simpl. apply Permutation_length, NoDup_Permutation.
  - apply list_set_NoDup.
  - apply NoDup_elements.
  - intros x. rewrite list_set_elem, elem_of_elements, elem_of_list_to_set. done.
Qed.

(** Every result [query_rag] returns: either one of the two fixed
    answers, citing nothing, or the answer generated from the formatted
    context of the retrieved documents, citing their sources. *)
Inductive rag_result (question : string) (k : Z) (t : list Event) : gmap string value → Prop :=
| rag_fallback answer :
    no_llm_call t →
    (∀ q n docs, SimilaritySearch q n (Returns docs) ∈ t → docs = []) →
    rag_result question k t
      {[ "answer" := VStr answer; "sources" := VNames []; "context" := VStr EmptyString ]}
| rag_answer docs answer :
    docs ≠ [] →
    SimilaritySearch question k (Returns docs) ∈ t →
    ChainInvoke RAG_PROMPT_TEMPLATE
      {[ "context" := VStr (format_context docs); "question" := VStr question ]}
      (Returns answer) ∈ t →
    rag_result question k t
      {[ "answer" := VStr answer;
         "sources" := VNames (list_set (doc_source <$> docs));
         "context" := VStr (format_context docs) ]}.

Lemma query_rag_returns (question : string) (k : Z) (w : W) (d : gmap string value) :
  res (query_rag question k w) = Returns d →
  rag_result question k (trace (query_rag question k w)) d.
Proof.
  unfold query_rag, bind. rewrite get_document_count_run. simpl.
  destruct (count_of (collection_count w).1 =? 0); simpl.
  { intros [= <-]. apply rag_fallback; [repeat constructor|].
    intros q n docs Hin. trace_cases Hin. }
  rewrite similarity_search_run. simpl.
  destruct (vs_similarity_search _ _ _).1 as [[|doc docs]|e] eqn:Hdocs; simpl.
  - intros [= <-]. apply rag_fallback; [repeat constructor|].
    intros q n docs Hin. trace_cases Hin. congruence.
  - rewrite get_llm_run. destruct (Str.truthy OPENAI_API_KEY); simpl; [|done].
    rewrite invoke_run. simpl.
    destruct (chain_invoke _ _ _).1 as [answer|e] eqn:Hanswer; simpl; [|done].
    intros [= <-]. apply (rag_answer _ _ _ (doc :: docs) answer); [done| |].
    + right; left.
    + do 3 right. rewrite <- Hanswer. left.
  - done.
Qed.

(** Every result [search_web] returns. *)
Inductive web_result (question : string) (t : list Event) : gmap string value → Prop :=
| web_fallback results :
    RequestsPost question MAX_SEARCH_RESULTS (Returns results) ∈ t →
    default [] (organic results) = [] →
    no_llm_call t →
    web_result question t
      {[ "answer" := VStr NO_RESULTS_ANSWER; "sources" := VDicts [];
         "raw_results" := VRaw results ]}
| web_answer results answer :
    RequestsPost question MAX_SEARCH_RESULTS (Returns results) ∈ t →
    ChainInvoke WEB_SEARCH_PROMPT_TEMPLATE
      {[ "search_results" := VStr (format_search_results results);
         "question" := VStr question ]}
      (Returns answer) ∈ t →
    web_result question t
      {[ "answer" := VStr answer; "sources" := VDicts (extract_sources results);
         "raw_results" := VRaw results ]}.

Lemma search_web_returns (question : string) (w : W) (d : gmap string value) :
  res (search_web question w) = Returns d →
  web_result question (trace (search_web question w)) d.
Proof.
  unfold search_web, bind. rewrite search_serper_run.
  destruct (Str.truthy SERPER_API_KEY); simpl; [|done].
  destruct (requests_post question MAX_SEARCH_RESULTS w).1 as [found|e] eqn:Hreply;
    simpl; [|done].
  destruct (String.eqb (format_search_results found) NO_RESULTS) eqn:Hfmt; simpl.
  - intros [= <-]. apply String.eqb_eq in Hfmt.
    apply format_search_results_empty in Hfmt as (Horg & _).
    apply web_fallback; [left|done|repeat constructor].
  - rewrite get_llm_run. destruct (Str.truthy OPENAI_API_KEY); simpl; [|done].
    rewrite invoke_run. simpl.
    destruct (chain_invoke _ _ _).1 as [answer|e] eqn:Hanswer; simpl; [|done].
    intros [= <-]. apply web_answer; [left|].
    do 2 right. rewrite <- Hanswer. left.
Qed.

End Grounding.

(** ** Hybrid mode *)

Section Hybrid.
Context {W : Type} `{!Runtime W}.

(** The three stages of [hybrid_mode]. *)
Definition documents_step (question : string) (doc_count : Z) : M W (gmap string value) :=
  let rag_result : gmap string value :=
    {[ "answer" := VStr EmptyString; "sources" := VNames []; "context" := VStr EmptyString ]} in
  if 0 <? doc_count then
    try_except (query_rag question TOP_K_RESULTS)
      (λ e, ret (<["context" := VStr ("Error retrieving from documents: " +:+ exn_msg e)]>
                   rag_result))
  else ret rag_result.

Definition web_step (question : string) : M W (gmap string value) :=
  let web_result : gmap string value :=
    {[ "answer" := VStr EmptyString; "sources" := VDicts []; "raw_results" := VRaw no_results ]} in
  try_except (search_web question)
    (λ e, ret (<["answer" := VStr ("Error searching web: " +:+ exn_msg e)]> web_result)).

Definition fusion_vars (question : string) (rag_context web_context : value) : gmap string value :=
  {[ "rag_context" := rag_context; "web_context" := web_context; "question" := VStr question ]}.

Definition fuse (question : string) (rag_result web_result : gmap string value)
  : M W (gmap string value) :=
  let rag_context := default (VStr "No document context available.") (rag_result !! "context") in
  let web_context := default (VStr "No web search results available.") (web_result !! "answer") in
  get_llm ;;;
  response <- invoke HYBRID_PROMPT_TEMPLATE (fusion_vars question rag_context web_context) ;;
  doc_sources <- iter_names (default (VNames []) (rag_result !! "sources")) ;;
  web_sources <- iter_dicts (default (VDicts []) (web_result !! "sources")) ;;
  let all_sources := (document_entry <$> doc_sources) ++ (web_entry <$> web_sources) in
  ret {[ "answer" := VStr response;
         "sources" := VDicts all_sources;
         "mode" := VStr "hybrid";
         "rag_context" := rag_context;
         "web_results" := default (VRaw no_results) (web_result !! "raw_results") ]}.

Lemma hybrid_mode_steps (question : string) (doc_count : Z) :
  hybrid_mode question doc_count =
    (rag_result <- documents_step question doc_count ;;
     web_result <- web_step question ;;
     fuse question rag_result web_result).
Proof. reflexivity. Qed.

(** The dict of the document side, by its three entries. *)
Definition rag_dict (answer : string) (names : list string) (context : string)
  : gmap string value :=
  {[ "answer" := VStr answer; "sources" := VNames names; "context" := VStr context ]}.

Definition web_dict (answer : string) (sources : list (gmap string string))
    (results : SearchResults) : gmap string value :=
  {[ "answer" := VStr answer; "sources" := VDicts sources; "raw_results" := VRaw results ]}.

Definition hybrid_dict (answer : string) (sources : list (gmap string string))
    (rag_context : value) (results : value) : gmap string value :=
  {[ "answer" := VStr answer; "sources" := VDicts sources; "mode" := VStr "hybrid";
     "rag_context" := rag_context; "web_results" := results ]}.

Lemma fuse_run (question answer_r context answer_w : string) (names : list string)
    (sources : list (gmap string string)) (results : SearchResults) (w : W) :
  let vars := fusion_vars question (VStr context) (VStr answer_w) in
  fuse question (rag_dict answer_r names context) (web_dict answer_w sources results) w =
    if Str.truthy OPENAI_API_KEY then
      Run (match (chain_invoke HYBRID_PROMPT_TEMPLATE vars w).1 with
           | Returns answer =>
               Returns (hybrid_dict answer
                          ((document_entry <$> names) ++ (web_entry <$> sources))
                          (VStr context) (VRaw results))
           | Raises e => Raises e
           end)
          (chain_invoke HYBRID_PROMPT_TEMPLATE vars w).2
          [ChatOpenAI; ChainInvoke HYBRID_PROMPT_TEMPLATE vars (chain_invoke HYBRID_PROMPT_TEMPLATE vars w).1]
    else Run (Raises (Exn ValueError "OPENAI_API_KEY is not set. Please set it in your .env file.")) w [].
Proof.
  intros vars. unfold fuse, bind. rewrite get_llm_run.
  destruct (Str.truthy OPENAI_API_KEY); simpl; [|done].
  change (default _ (rag_dict answer_r names context !! "context")) with (VStr context).
  change (default _ (web_dict answer_w sources results !! "answer")) with (VStr answer_w).
  fold vars. rewrite invoke_run. simpl.
  destruct (chain_invoke HYBRID_PROMPT_TEMPLATE vars w).1; simpl; [|done].
  reflexivity.
Qed.

Lemma documents_step_skipped (question : string) (doc_count : Z) (w : W) :
  doc_count ≤ 0 →
  documents_step question doc_count w
    = Run (Returns (rag_dict EmptyString [] EmptyString)) w [].
Proof.
  intros Hcount. unfold documents_step.
  now rewrite (proj2 (Z.ltb_ge 0 doc_count) Hcount).
Qed.

Lemma documents_step_failed (question : string) (doc_count : Z) (w : W) (e : exn) :
  0 < doc_count →
  res (query_rag question TOP_K_RESULTS w) = Raises e →
  documents_step question doc_count w
    = Run (Returns (rag_dict EmptyString []
                      ("Error retrieving from documents: " +:+ exn_msg e)))
          (after (query_rag question TOP_K_RESULTS w))
          (trace (query_rag question TOP_K_RESULTS w)).
Proof.
  intros Hcount Hraise. unfold documents_step, try_except.
  rewrite (proj2 (Z.ltb_lt 0 doc_count) Hcount), Hraise. simpl.
  now rewrite app_nil_r.
Qed.

Lemma documents_step_answered (question : string) (doc_count : Z) (w : W)
    (d : gmap string value) :
  0 < doc_count →
  res (query_rag question TOP_K_RESULTS w) = Returns d →
  documents_step question doc_count w = query_rag question TOP_K_RESULTS w.
Proof.
  intros Hcount Hd. unfold documents_step, try_except.
  now rewrite (proj2 (Z.ltb_lt 0 doc_count) Hcount), Hd.
Qed.

(** The document side of a fusion always yields a result dict; it cites
    sources only when [query_rag] answered from retrieved documents. *)
Lemma documents_step_shape (question : string) (doc_count : Z) (w : W) :
  ∃ answer docs context,
    res (documents_step question doc_count w)
      = Returns (rag_dict answer (list_set (doc_source <$> docs)) context)
    ∧ (docs = []
       ∨ docs ≠ []
         ∧ context = format_context docs
         ∧ SimilaritySearch question TOP_K_RESULTS (Returns docs)
             ∈ trace (documents_step question doc_count w)
         ∧ ChainInvoke RAG_PROMPT_TEMPLATE
             {[ "context" := VStr (format_context docs); "question" := VStr question ]}
             (Returns answer)
             ∈ trace (documents_step question doc_count w)).
Proof.
  destruct (Z.lt_ge_cases 0 doc_count) as [Hcount|Hcount].
  - destruct (res (query_rag question TOP_K_RESULTS w)) as [d|e] eqn:Hrag.
    + rewrite (documents_step_answered _ _ _ d Hcount Hrag), Hrag.
      destruct (query_rag_returns _ _ _ _ Hrag) as [answer Hllm Hdocs|docs answer Hne Hs Hc].
      * exists answer, [], EmptyString. rewrite list_set_nil. split; [done|by left].
      * exists answer, docs, (format_context docs). split; [done|right; done].
    + rewrite (documents_step_failed _ _ _ e Hcount Hrag). simpl.
      exists EmptyString, [], ("Error retrieving from documents: " +:+ exn_msg e).
      rewrite list_set_nil. split; [done|by left].
  - rewrite (documents_step_skipped _ _ _ Hcount). simpl.
    exists EmptyString, [], EmptyString. rewrite list_set_nil. split; [done|by left].
Qed.

Lemma web_step_failed (question : string) (w : W) (e : exn) :
  res (search_web question w) = Raises e →
  web_step question w
    = Run (Returns (web_dict ("Error searching web: " +:+ exn_msg e) [] no_results))
          (after (search_web question w)) (trace (search_web question w)).
Proof.
  intros Hraise. unfold web_step, try_except. rewrite Hraise. simpl.
  now rewrite app_nil_r.
Qed.

Lemma web_step_answered (question : string) (w : W) (d : gmap string value) :
  res (search_web question w) = Returns d →
  web_step question w = search_web question w.
Proof. intros Hd. unfold web_step, try_except. now rewrite Hd. Qed.

(** The web side of a fusion always yields a result dict; its sources
    are the organic results of the response it stores, and it stores a
    response only when the search answered. *)
Lemma web_step_shape (question : string) (w : W) :
  ∃ answer results,
    res (web_step question w)
      = Returns (web_dict answer (extract_sources results) results)
    ∧ (results = no_results
       ∨ RequestsPost question MAX_SEARCH_RESULTS (Returns results)
           ∈ trace (web_step question w)
         ∧ (default [] (organic results) = []
            ∨ ChainInvoke WEB_SEARCH_PROMPT_TEMPLATE
                {[ "search_results" := VStr (format_search_results results);
                   "question" := VStr question ]}
                (Returns answer)
                ∈ trace (web_step question w))).
Proof.
  destruct (res (search_web question w)) as [d|e] eqn:Hweb.
  - rewrite (web_step_answered _ _ d Hweb), Hweb.
    destruct (search_web_returns _ _ _ Hweb) as [results Hpost Horg Hllm|results answer Hpost Hgen].
    + exists NO_RESULTS_ANSWER, results. unfold extract_sources. rewrite Horg.
      split; [done|]. right. split; [done|by left].
    + exists answer, results. split; [done|]. right. split; [done|by right].
  - rewrite (web_step_failed _ _ e Hweb). simpl.
    exists ("Error searching web: " +:+ exn_msg e), no_results. split; [done|by left].
Qed.

(** One run of [hybrid_mode], stage by stage. *)
Lemma hybrid_mode_run (question : string) (doc_count : Z) (w : W) :
  ∃ answer_r docs context answer_w results,
    let w1 := after (documents_step question doc_count w) in
    let w2 := after (web_step question w1) in
    let rag := rag_dict answer_r (list_set (doc_source <$> docs)) context in
    let web := web_dict answer_w (extract_sources results) results in
    res (documents_step question doc_count w) = Returns rag
    ∧ res (web_step question w1) = Returns web
    ∧ hybrid_mode question doc_count w
        = Run (res (fuse question rag web w2)) (after (fuse question rag web w2))
              (trace (documents_step question doc_count w)
               ++ trace (web_step question w1)
               ++ trace (fuse question rag web w2))
    ∧ (docs = []
       ∨ docs ≠ []
         ∧ context = format_context docs
         ∧ SimilaritySearch question TOP_K_RESULTS (Returns docs)
             ∈ trace (documents_step question doc_count w)
         ∧ ChainInvoke RAG_PROMPT_TEMPLATE
             {[ "context" := VStr (format_context docs); "question" := VStr question ]}
             (Returns answer_r)
             ∈ trace (documents_step question doc_count w))
    ∧ (results = no_results
       ∨ RequestsPost question MAX_SEARCH_RESULTS (Returns results)
           ∈ trace (web_step question w1)
         ∧ (default [] (organic results) = []
            ∨ ChainInvoke WEB_SEARCH_PROMPT_TEMPLATE
                {[ "search_results" := VStr (format_search_results results);
                   "question" := VStr question ]}
                (Returns answer_w)
                ∈ trace (web_step question w1))).
Proof.
  destruct (documents_step_shape question doc_count w)
    as (answer_r & docs & context & Hrag & Hdocs).
  destruct (web_step_shape question (after (documents_step question doc_count w)))
    as (answer_w & results & Hweb & Hresults).
  exists answer_r, docs, context, answer_w, results. simpl.
  repeat split; try done.
  rewrite hybrid_mode_steps.
  rewrite (bind_returns _ _ _ _ Hrag). simpl.
  rewrite (bind_returns _ _ _ _ Hweb). simpl.
  reflexivity.
Qed.

Lemma document_entry_type (name : string) :
  document_entry name !! "type" = Some "document".
Proof. reflexivity. Qed.

Lemma web_entry_type (source : gmap string string) :
  web_entry source !! "type" = Some "web".
Proof. reflexivity. Qed.

(** C3.  The provenance of a fusion result, read off the retrieved
    documents and the search response.  It is one entry
    [{type: document, name}] per unique source name of the documents,
    the name of a document being the "source" of its metadata and
    "Unknown" without one, followed by one entry [{type: web, title, url}]
    per organic result of the stored response, title and url being the
    result's title ("Unknown" without one) and link (empty without one).
    Its length is the number of unique names plus the number of organic
    results; each group keeps its own order and nothing is removed across
    the groups.  The names are the sources [query_rag] returned and the
    response is the one [search_web] returned, whenever they ran and
    returned. *)
Theorem hybrid_mode_provenance (question : string) (doc_count : Z) (w : W)
    (d : gmap string value) :
  res (hybrid_mode question doc_count w) = Returns d →
  ∃ (docs : list Document) (results : SearchResults),
    let source_of := λ doc : Document, default "Unknown" (metadata doc !! "source") in
    let names := list_set (source_of <$> docs) in
    let doc_entries :=
      (λ name : string,
         ({[ "type" := "document"; "name" := name ]} : gmap string string))
      <$> names in
    let web_entries :=
      (λ result : gmap string string,
         ({[ "type" := "web";
             "title" := default "Unknown" (result !! "title");
             "url" := default EmptyString (result !! "link") ]} : gmap string string))
      <$> default [] (organic results) in
    (docs = [] ∨ SimilaritySearch question TOP_K_RESULTS (Returns docs)
                   ∈ trace (hybrid_mode question doc_count w))
    ∧ (results = no_results
       ∨ RequestsPost question MAX_SEARCH_RESULTS (Returns results)
           ∈ trace (hybrid_mode question doc_count w))
    ∧ d !! "web_results" = Some (VRaw results)
    ∧ d !! "sources" = Some (VDicts (doc_entries ++ web_entries))
    ∧ length (doc_entries ++ web_entries)
        = (size (list_to_set (source_of <$> docs) : gset string)
           + length (default [] (organic results)))%nat
    ∧ NoDup names
    ∧ (∀ name, name ∈ names ↔ ∃ doc, doc ∈ docs ∧ source_of doc = name)
    ∧ Forall (λ entry, entry !! "type" = Some "document") doc_entries
    ∧ Forall (λ entry, entry !! "type" = Some "web") web_entries
    ∧ (∀ rag, 0 < doc_count →
         res (query_rag question TOP_K_RESULTS w) = Returns rag →
         rag !! "sources" = Some (VNames names))
    ∧ (∀ web,
         res (search_web question (after (documents_step question doc_count w)))
           = Returns web →
         web !! "sources"
           = Some (VDicts ((λ result : gmap string string,
                              ({[ "title" := default "Unknown" (result !! "title");
                                  "url" := default EmptyString (result !! "link") ]}
                               : gmap string string))
                           <$> default [] (organic results)))
         ∧ web !! "raw_results" = Some (VRaw results)).
Proof.
  intros Hd.
  destruct (hybrid_mode_run question doc_count w)
    as (answer_r & docs & context & answer_w & results & Hrag & Hweb & Hrun & Hdocs & Hres).
  simpl in *. rewrite Hrun in Hd |- *. simpl in *.
  rewrite fuse_run in Hd. simpl in Hd.
  destruct (Str.truthy OPENAI_API_KEY); simpl in Hd; [|done].
  destruct (chain_invoke _ _ _).1 as [answer|e]; [|done].
  injection Hd as <-.
  assert (Hentries : web_entry <$> extract_sources results
            = (λ result : gmap string string,
                 ({[ "type" := "web";
                     "title" := default "Unknown" (result !! "title");
                     "url" := default EmptyString (result !! "link") ]}
                  : gmap string string))
              <$> default [] (organic results)).
  { unfold extract_sources. rewrite <- list_fmap_compose.
    apply list_fmap_ext. intros i result _. reflexivity. }
  exists docs, results. repeat apply conj.
  - destruct Hdocs as [->|(_ & _ & Hs & _)]; [by left|right].
    apply elem_of_app. by left.
  - destruct Hres as [->|[Hp _]]; [by left|right].
    apply elem_of_app. right. apply elem_of_app. by left.
  - reflexivity.
  - rewrite <- Hentries. reflexivity.
  - rewrite length_app, !length_fmap, list_set_length. reflexivity.
  - apply list_set_NoDup.
  - intros name. rewrite list_set_elem, list_elem_of_fmap.
    split; [intros (doc & -> & Hdoc)|intros (doc & Hdoc & <-)]; by exists doc.
  - apply Forall_fmap, Forall_true. intros name. reflexivity.
  - apply Forall_fmap, Forall_true. intros source. reflexivity.
  - intros rag Hcount Hq.
    rewrite (documents_step_answered _ _ _ _ Hcount Hq), Hq in Hrag.
    now injection Hrag as ->.
  - intros web Hq. rewrite (web_step_answered _ _ _ Hq), Hq in Hweb.
    now injection Hweb as ->.
Qed.


Lemma search_web_template (question : string) (w : W) t vars reply :
  ChainInvoke t vars reply ∈ trace (search_web question w) →
  t = WEB_SEARCH_PROMPT_TEMPLATE.
Proof.
  unfold search_web, bind. rewrite search_serper_run.
  destruct (Str.truthy SERPER_API_KEY); simpl; [|intros Hin; trace_cases Hin].
  destruct (requests_post _ _ _).1; simpl; [|intros Hin; trace_cases Hin].
  destruct (String.eqb _ _); simpl; [intros Hin; trace_cases Hin|].
  rewrite get_llm_run. destruct (Str.truthy _); simpl;
    [|intros Hin; trace_cases Hin].
  rewrite invoke_run. simpl.
  destruct (chain_invoke _ _ _).1; simpl; intros Hin; trace_cases Hin; congruence.
Qed.


Lemma query_hybrid_forced (question : string) (w : W) :
  query_hybrid question false w =
    let c := get_document_count w in
    let r := hybrid_mode question (count_of (collection_count w).1) (after c) in
    Run (res r) (after r) (trace c ++ trace r).
Proof. unfold query_hybrid, bind. now rewrite get_document_count_run. Qed.

Lemma search_web_no_document_search (question : string) (w : W) :
  no_document_search (trace (search_web question w)).
Proof.
  unfold search_web, bind. rewrite search_serper_run.
  destruct (Str.truthy SERPER_API_KEY); simpl; [|constructor].
  destruct (requests_post _ _ _).1; simpl; [|repeat constructor].
  destruct (String.eqb _ _); simpl; [repeat constructor|].
  rewrite get_llm_run. destruct (Str.truthy _); simpl; [|repeat constructor].
  rewrite invoke_run. simpl.
  destruct (chain_invoke _ _ _).1; simpl; repeat constructor.
Qed.

(** With a document count of zero the fusion never searches the index,
    and the document context it hands to the model is the empty string
    of the initial [rag_result], not the default of the [get]. *)
Lemma hybrid_mode_without_documents (question : string) (doc_count : Z) (w : W) :
  doc_count ≤ 0 →
  no_document_search (trace (hybrid_mode question doc_count w))
  ∧ (∀ vars reply,
       ChainInvoke HYBRID_PROMPT_TEMPLATE vars reply
         ∈ trace (hybrid_mode question doc_count w) →
       vars !! "rag_context" = Some (VStr EmptyString))
  ∧ (∀ d, res (hybrid_mode question doc_count w) = Returns d →
       d !! "rag_context" = Some (VStr EmptyString)).
Proof.
  intros Hcount. rewrite hybrid_mode_steps.
  pose proof (documents_step_skipped question _ w Hcount) as Hstep.
  assert (res (documents_step question doc_count w)
          = Returns (rag_dict EmptyString [] EmptyString)) as Hres by now rewrite Hstep.
  rewrite (bind_returns _ _ _ _ Hres). rewrite Hstep. simpl.
  destruct (web_step_shape question w) as (answer_w & results & Hweb & _).
  rewrite (bind_returns _ _ _ _ Hweb). simpl.
  assert (Hnone : no_document_search (trace (web_step question w))).
  { unfold web_step, try_except.
    pose proof (search_web_no_document_search question w).
    destruct (res (search_web question w)); simpl; [done|]. now rewrite app_nil_r. }
  assert (Htpl : ∀ t vars reply,
             ChainInvoke t vars reply ∈ trace (web_step question w) →
             t = WEB_SEARCH_PROMPT_TEMPLATE).
  { unfold web_step, try_except. intros t vars reply.
    destruct (res (search_web question w)) eqn:E; simpl; rewrite ?app_nil_r;
      apply search_web_template. }
  rewrite fuse_run.
  destruct (Str.truthy OPENAI_API_KEY); simpl.
  - repeat split.
    + apply Forall_app. split; [done|].
      destruct (chain_invoke _ _ _).1; repeat constructor.
    + intros vars reply Hin. apply elem_of_app in Hin as [Hin|Hin].
      * apply Htpl in Hin. discriminate.
      * destruct (chain_invoke _ _ _).1; trace_cases Hin; injection Hin as -> _; done.
    + destruct (chain_invoke _ _ _).1; intros d [= <-]. done.
  - rewrite app_nil_r. repeat split; [done| |done].
    intros vars reply Hin. apply Htpl in Hin. discriminate.
Qed.

End Hybrid.

(** ** Provenance and the evidence behind it *)

(** The model call that gave [answer] had [evidence] among the variables
    of its prompt. *)
Definition answered_from (t : list Event) (answer evidence : string) : Prop :=
  ∃ template vars key,
    ChainInvoke template vars (Returns answer) ∈ t
    ∧ vars !! key = Some (VStr evidence).

(** [name] is the source of a document that a similarity search of the
    run returned and whose formatted context went into [answer]. *)
Definition document_used (t : list Event) (answer name : string) : Prop :=
  ∃ q k docs doc,
    SimilaritySearch q k (Returns docs) ∈ t
    ∧ doc ∈ docs ∧ doc_source doc = name
    ∧ answered_from t answer (format_context docs).

(** [source] is an organic result of a response that a search of the run
    returned and whose formatted context went into [answer], directly or
    through the web answer handed to the fusion call. *)
Definition organic_used (t : list Event) (answer : string)
    (source : gmap string string) : Prop :=
  ∃ q n results,
    RequestsPost q n (Returns results) ∈ t
    ∧ source ∈ extract_sources results
    ∧ (answered_from t answer (format_search_results results)
       ∨ ∃ web_answer,
           answered_from t web_answer (format_search_results results)
           ∧ answered_from t answer web_answer).

(** No similarity search of the run returned a document. *)
Definition nothing_retrieved (t : list Event) : Prop :=
  ∀ q k docs, SimilaritySearch q k (Returns docs) ∈ t → docs = [].

(** No search of the run returned an organic result. *)
Definition nothing_found (t : list Event) : Prop :=
  ∀ q n results, RequestsPost q n (Returns results) ∈ t →
                 default [] (organic results) = [].

Definition cites_documents (t : list Event) (answer : string) (names : list string) : Prop :=
  (∀ name, name ∈ names → document_used t answer name)
  ∧ (nothing_retrieved t → names = []).

Definition cites_web (t : list Event) (answer : string)
    (sources : list (gmap string string)) : Prop :=
  (∀ source, source ∈ sources → organic_used t answer source)
  ∧ (nothing_found t → sources = []).

Lemma cites_documents_intro t answer names :
  (∀ name, name ∈ names → document_used t answer name) →
  cites_documents t answer names.
Proof.
  intros Hused. split; [done|]. intros Hnone.
  destruct names as [|name names]; [done|].
  destruct (Hused name) as (q & k & docs & doc & Hs & Hdoc & _); [left|].
  apply Hnone in Hs. subst. now apply elem_of_nil in Hdoc.
Qed.

Lemma cites_web_intro t answer sources :
  (∀ source, source ∈ sources → organic_used t answer source) →
  cites_web t answer sources.
Proof.
  intros Hused. split; [done|]. intros Hnone.
  destruct sources as [|source sources]; [done|].
  destruct (Hused source) as (q & n & results & Hp & Hsrc & _); [left|].
  apply Hnone in Hp. unfold extract_sources in Hsrc. rewrite Hp in Hsrc.
  now apply elem_of_nil in Hsrc.
Qed.

Lemma answered_from_mono (t t' : list Event) answer evidence :
  t ⊆ t' → answered_from t answer evidence → answered_from t' answer evidence.
Proof.
  intros Hsub (template & vars & key & Hin & Hkey). exists template, vars, key.
  split; [by apply Hsub|done].
Qed.

Lemma document_used_mono (t t' : list Event) answer name :
  t ⊆ t' → document_used t answer name → document_used t' answer name.
Proof.
  intros Hsub (q & k & docs & doc & Hs & Hdoc & Hname & Hans).
  exists q, k, docs, doc. repeat split; try done.
  - by apply Hsub.
  - by apply (answered_from_mono t).
Qed.

Lemma organic_used_mono (t t' : list Event) answer source :
  t ⊆ t' → organic_used t answer source → organic_used t' answer source.
Proof.
  intros Hsub (q & n & results & Hp & Hsrc & Hans).
  exists q, n, results. repeat split; try done.
  - by apply Hsub.
  - destruct Hans as [Hans|(web_answer & H1 & H2)].
    + left. by apply (answered_from_mono t).
    + right. exists web_answer. split; by apply (answered_from_mono t).
Qed.

Lemma cites_documents_mono (t t' : list Event) answer names :
  t ⊆ t' → cites_documents t answer names → cites_documents t' answer names.
Proof.
  intros Hsub [Hused _]. apply cites_documents_intro.
  intros name Hname. apply (document_used_mono t); auto.
Qed.

Lemma cites_web_mono (t t' : list Event) answer sources :
  t ⊆ t' → cites_web t answer sources → cites_web t' answer sources.
Proof.
  intros Hsub [Hused _]. apply cites_web_intro.
  intros source Hsource. apply (organic_used_mono t); auto.
Qed.

(** A trace is included in every trace it is a segment of. *)
Ltac sub_trace :=
  let ev := fresh "ev" in
  let Hev := fresh "Hev" in
  intros ev Hev;
  repeat (rewrite elem_of_cons in Hev || rewrite elem_of_app in Hev);
  repeat (rewrite elem_of_cons || rewrite elem_of_app);
  tauto.

Section Provenance.
Context {W : Type} `{!Runtime W}.

Lemma query_rag_cites (question : string) (k : Z) (w : W) (d : gmap string value) :
  res (query_rag question k w) = Returns d →
  ∃ answer names,
    d !! "answer" = Some (VStr answer)
    ∧ d !! "sources" = Some (VNames names)
    ∧ cites_documents (trace (query_rag question k w)) answer names.
Proof.
  intros Hd.
  destruct (query_rag_returns _ _ _ _ Hd) as [answer Hllm Hdocs|docs answer Hne Hs Hc].
  - exists answer, []. repeat split; try done.
    intros name Hname. now apply elem_of_nil in Hname.
  - exists answer, (list_set (doc_source <$> docs)). split; [done|split; [done|]].
    apply cites_documents_intro. intros name Hname.
    apply list_set_elem, list_elem_of_fmap in Hname as (doc & -> & Hdoc).
    exists question, k, docs, doc. repeat split; try done.
    eexists _, _, "context". split; [exact Hc|reflexivity].
Qed.

Lemma search_web_cites (question : string) (w : W) (d : gmap string value) :
  res (search_web question w) = Returns d →
  ∃ answer sources,
    d !! "answer" = Some (VStr answer)
    ∧ d !! "sources" = Some (VDicts sources)
    ∧ cites_web (trace (search_web question w)) answer sources.
Proof.
  intros Hd.
  destruct (search_web_returns _ _ _ Hd) as [results Hpost Horg Hllm|results answer Hpost Hgen].
  - exists NO_RESULTS_ANSWER, []. repeat split; try done.
    intros source Hsource. now apply elem_of_nil in Hsource.
  - exists answer, (extract_sources results). split; [done|split; [done|]].
    apply cites_web_intro. intros source Hsource.
    exists question, MAX_SEARCH_RESULTS, results. repeat split; try done.
    left. eexists _, _, "search_results". split; [exact Hgen|reflexivity].
Qed.

Lemma hybrid_mode_cites (question : string) (doc_count : Z) (w : W)
    (d : gmap string value) :
  res (hybrid_mode question doc_count w) = Returns d →
  ∃ answer names sources,
    d !! "answer" = Some (VStr answer)
    ∧ d !! "sources"
        = Some (VDicts ((document_entry <$> names) ++ (web_entry <$> sources)))
    ∧ d !! "mode" = Some (VStr "hybrid")
    ∧ cites_documents (trace (hybrid_mode question doc_count w)) answer names
    ∧ cites_web (trace (hybrid_mode question doc_count w)) answer sources.
Proof.
  intros Hd.
  destruct (hybrid_mode_run question doc_count w)
    as (answer_r & docs & context & answer_w & results & Hrag & Hweb & Hrun & Hdocs & Hres).
  simpl in *. rewrite Hrun in Hd |- *. simpl in *. clear Hrun.
  rewrite fuse_run in Hd |- *. simpl in *.
  destruct (Str.truthy OPENAI_API_KEY); simpl in *; [|done].
  destruct (chain_invoke _ _ _).1 as [answer|e] eqn:Hanswer; [|done].
  injection Hd as <-.
  exists answer, (list_set (doc_source <$> docs)), (extract_sources results).
  split; [done|split; [done|split; [done|split]]].
  - apply cites_documents_intro. intros name Hname.
    apply list_set_elem, list_elem_of_fmap in Hname as (doc & -> & Hdoc).
    destruct Hdocs as [->|(_ & -> & Hs & _)]; [now apply elem_of_nil in Hdoc|].
    exists question, TOP_K_RESULTS, docs, doc. repeat split; try done.
    + apply elem_of_app. by left.
    + exists HYBRID_PROMPT_TEMPLATE,
        (fusion_vars question (VStr (format_context docs)) (VStr answer_w)), "rag_context".
      split; [|done].
      do 2 (apply elem_of_app; right). right. left.
  - apply cites_web_intro. intros source Hsource.
    destruct Hres as [->|[Hpost Horg]]; [now apply elem_of_nil in Hsource|].
    destruct Horg as [Horg|Hgen].
    { unfold extract_sources in Hsource. rewrite Horg in Hsource.
      now apply elem_of_nil in Hsource. }
    exists question, MAX_SEARCH_RESULTS, results. repeat split; try done.
    + apply elem_of_app. right. apply elem_of_app. by left.
    + right. exists answer_w. split.
      * eexists _, _, "search_results".
        split; [apply elem_of_app; right; apply elem_of_app; left; exact Hgen|reflexivity].
      * exists HYBRID_PROMPT_TEMPLATE,
          (fusion_vars question (VStr context) (VStr answer_w)), "web_context".
        split; [|done].
        do 2 (apply elem_of_app; right). right. left.
Qed.

(** C5.  The sources of every result that [query_rag], [search_web] or
    [query_hybrid] returns rest on evidence that went into the answer:
    each cited name is the source of a document retrieved in the run
    whose formatted context was a prompt variable of the call that gave
    the answer, and each cited web source is an organic result of a
    response fetched in the run whose formatted context went into the
    answer.  When no retrieval of the run returned a document (it failed,
    returned nothing, or was not made) no document is cited, and when no
    search returned an organic result no web source is cited. *)
Theorem provenance_rests_on_evidence :
  (∀ (question : string) (k : Z) (w : W) (d : gmap string value),
     res (query_rag question k w) = Returns d →
     ∃ answer names,
       d !! "answer" = Some (VStr answer)
       ∧ d !! "sources" = Some (VNames names)
       ∧ cites_documents (trace (query_rag question k w)) answer names)
  ∧ (∀ (question : string) (w : W) (d : gmap string value),
     res (search_web question w) = Returns d →
     ∃ answer sources,
       d !! "answer" = Some (VStr answer)
       ∧ d !! "sources" = Some (VDicts sources)
       ∧ cites_web (trace (search_web question w)) answer sources)
  ∧ (∀ (question : string) (auto_route : bool) (w : W) (d : gmap string value),
     res (query_hybrid question auto_route w) = Returns d →
     let t := trace (query_hybrid question auto_route w) in
     ∃ answer,
       d !! "answer" = Some (VStr answer)
       ∧ ((d !! "mode" = Some (VStr "documents")
           ∧ ∃ names,
               d !! "sources" = Some (VNames names)
               ∧ cites_documents t answer names)
          ∨ (d !! "mode" = Some (VStr "web")
             ∧ ∃ sources,
                 d !! "sources" = Some (VDicts sources)
                 ∧ cites_web t answer sources)
          ∨ (d !! "mode" = Some (VStr "hybrid")
             ∧ ∃ names sources,
                 d !! "sources"
                   = Some (VDicts ((document_entry <$> names) ++ (web_entry <$> sources)))
                 ∧ cites_documents t answer names
                 ∧ cites_web t answer sources))).
Proof.
  split; [exact query_rag_cites|split; [exact search_web_cites|]].
  intros question auto_route w d.
  assert (Hfusion : ∀ t0 n w' d',
             res (hybrid_mode question n w') = Returns d' →
             ∃ answer,
               d' !! "answer" = Some (VStr answer)
               ∧ d' !! "mode" = Some (VStr "hybrid")
               ∧ ∃ names sources,
                   d' !! "sources"
                     = Some (VDicts ((document_entry <$> names) ++ (web_entry <$> sources)))
                   ∧ cites_documents (t0 ++ trace (hybrid_mode question n w')) answer names
                   ∧ cites_web (t0 ++ trace (hybrid_mode question n w')) answer sources).
  { intros t0 n w' d' Hd'.
    destruct (hybrid_mode_cites _ _ _ _ Hd')
      as (answer & names & sources & Ha & Hs & Hm & Hcd & Hcw).
    exists answer. split; [done|split; [done|]]. exists names, sources.
    split; [done|split].
    - eapply cites_documents_mono; [|exact Hcd]. sub_trace.
    - eapply cites_web_mono; [|exact Hcw]. sub_trace. }
  unfold query_hybrid, bind. rewrite get_document_count_run. simpl.
  destruct auto_route.
  - destruct (res (route_query question (collection_count w).2)) as [route|e] eqn:Hroute;
      simpl; [|done].
    destruct (String.eqb route "documents"); [|destruct (String.eqb route "web")]; simpl.
    + destruct (res (query_rag _ _ _)) as [result|e] eqn:Hrag; simpl; [|done].
      intros [= <-].
      destruct (query_rag_cites _ _ _ _ Hrag) as (answer & names & Ha & Hs & Hc).
      exists answer. rewrite lookup_insert_ne by done. split; [done|]. left.
      rewrite lookup_insert_eq, lookup_insert_ne by done. split; [done|].
      exists names. split; [done|].
      eapply cites_documents_mono; [|exact Hc]. sub_trace.
    + destruct (res (search_web _ _)) as [result|e] eqn:Hweb; simpl; [|done].
      intros [= <-].
      destruct (search_web_cites _ _ _ Hweb) as (answer & sources & Ha & Hs & Hc).
      exists answer. rewrite lookup_insert_ne by done. split; [done|]. right; left.
      rewrite lookup_insert_eq, lookup_insert_ne by done. split; [done|].
      exists sources. split; [done|].
      eapply cites_web_mono; [|exact Hc]. sub_trace.
    + intros Hd.
      destruct (Hfusion (trace (route_query question (collection_count w).2)) _ _ _ Hd)
        as (answer & Ha & Hm & names & sources & Hs & Hcd & Hcw).
      exists answer. split; [done|]. do 2 right. split; [done|].
      exists names, sources. split; [done|split].
      * eapply cites_documents_mono; [|exact Hcd]. sub_trace.
      * eapply cites_web_mono; [|exact Hcw]. sub_trace.
  - intros Hd.
    destruct (Hfusion [CollectionCount (collection_count w).1] _ _ _ Hd)
      as (answer & Ha & Hm & names & sources & Hs & Hcd & Hcw).
    exists answer. split; [done|]. do 2 right. split; [done|].
    exists names, sources. done.
Qed.

End Provenance.

(** * Concrete runs *)

(** ** A scripted world

    A world without state whose services answer from a fixed script; it is
    used to run the agents on concrete inputs. *)

Record Script := {
  s_openai_key : string;
  s_serper_key : string;
  s_count : outcome Z;
  s_metadatas : outcome (list (gmap string string));
  s_documents : outcome (list Document);
  s_chat : Template → outcome string;
  s_search : outcome SearchResults
}.

#[local] Instance scripted (sc : Script) : Runtime unit := {|
  OPENAI_API_KEY := s_openai_key sc;
  SERPER_API_KEY := s_serper_key sc;
  collection_count := λ w, (s_count sc, w);
  collection_get := λ w, (s_metadatas sc, w);
  vs_similarity_search := λ _ _ w, (s_documents sc, w);
  chain_invoke := λ t _ w, (s_chat sc t, w);
  requests_post := λ _ _ w, (s_search sc, w);
  list_set := remove_dups;
  list_set_NoDup := NoDup_remove_dups;
  list_set_elem := λ xs x, elem_of_remove_dups xs x
|}.

Definition document (source body : string) : Document :=
  {| page_content := body; metadata := {[ "source" := source ]} |}.

Definition sample_results : SearchResults :=
  {| organic := Some [ {[ "title" := "Release notes"; "snippet" := "Version 2 is out";
                          "link" := "https://example.org/notes" ]};
                       {[ "title" := "Blog"; "link" := "https://example.org/blog" ]} ];
     answerBox := Some {[ "snippet" := "Version 2" ]};
     knowledgeGraph := None |}.

(** Only a featured answer, no organic result. *)
Definition featured_only : SearchResults :=
  {| organic := Some []; answerBox := Some {[ "answer" := "42" ]}; knowledgeGraph := None |}.

(** Three chunks of two files are indexed, every service answers, and the
    classifier answers [label]. *)
Definition working (label : string) : Script :=
  {| s_openai_key := "sk-test"; s_serper_key := "serper-test";
     s_count := Returns 3;
     s_metadatas := Returns [ {[ "source" := "a.pdf" ]}; {[ "source" := "b.txt" ]};
                              {[ "source" := "a.pdf" ]} ];
     s_documents := Returns [ document "a.pdf" "alpha"; document "b.txt" "beta";
                              document "a.pdf" "gamma" ];
     s_chat := λ t, match t with
                    | QUERY_ROUTER_PROMPT => Returns label
                    | RAG_PROMPT_TEMPLATE => Returns "from documents"
                    | WEB_SEARCH_PROMPT_TEMPLATE => Returns "from the web"
                    | HYBRID_PROMPT_TEMPLATE => Returns "from both"
                    end;
     s_search := Returns sample_results |}.

(** Nothing is indexed. *)
Definition empty_index : Script :=
  {| s_openai_key := "sk-test"; s_serper_key := "serper-test";
     s_count := Returns 0;
     s_metadatas := Returns [];
     s_documents := Returns [];
     s_chat := λ _, Returns "an answer";
     s_search := Returns sample_results |}.

(** The index counts documents but its search fails or finds nothing. *)
Definition index_answers (reply : outcome (list Document)) (found : SearchResults) : Script :=
  {| s_openai_key := "sk-test"; s_serper_key := "serper-test";
     s_count := Returns 3;
     s_metadatas := Returns [];
     s_documents := reply;
     s_chat := λ _, Returns "an answer";
     s_search := Returns found |}.

Definition router_vars (question sources : string) : gmap string value :=
  {[ "question" := VStr question; "has_documents" := VStr "Yes";
     "document_sources" := VStr sources ]}.

Lemma route_query_no_documents_witness :
  res (@route_query unit (scripted empty_index) "what changed?" tt) = Returns "web"
  ∧ trace (@route_query unit (scripted empty_index) "what changed?" tt)
      = trace (@get_document_count unit (scripted empty_index) tt)
  ∧ no_llm_call (trace (@route_query unit (scripted empty_index) "what changed?" tt)).
Proof.
  apply (@route_query_no_documents unit (scripted empty_index)). reflexivity.
Defined.

(** A classifier that answers with stray case and whitespace is followed;
    one that answers anything else sends the question to fusion. *)
Lemma route_query_validates_witness :
  res (@route_query unit (scripted (working "  Documents ")) "what changed?" tt)
    = Returns "documents"
  ∧ res (@route_query unit (scripted (working "it depends")) "what changed?" tt)
      = Returns "hybrid".
Proof.
  split.
  - apply (@route_query_validates unit (scripted (working "  Documents "))
             "what changed?" tt (router_vars "what changed?" "b.txt, a.pdf")
             "  Documents ").
    + vm_compute. do 3 right. left.
    + vm_compute. left.
  - apply (@route_query_validates unit (scripted (working "it depends"))
             "what changed?" tt (router_vars "what changed?" "b.txt, a.pdf")
             "it depends").
    + vm_compute. do 3 right. left.
    + vm_compute. intros Hin. repeat (apply elem_of_cons in Hin as [Hin|Hin]; [discriminate|]).
      now apply elem_of_nil in Hin.
Defined.

Lemma search_web_no_results_witness :
  res (@search_web unit (scripted (index_answers (Returns []) no_results)) "what changed?" tt)
    = Returns {[ "answer" := VStr NO_RESULTS_ANSWER;
                 "sources" := VDicts [];
                 "raw_results" := VRaw no_results ]}
  ∧ no_llm_call
      (trace (@search_web unit (scripted (index_answers (Returns []) no_results))
                "what changed?" tt)).
Proof.
  apply (@search_web_no_results unit (scripted (index_answers (Returns []) no_results))
           "what changed?" tt "what changed?" MAX_SEARCH_RESULTS no_results).
  - vm_compute. left.
  - reflexivity.
Defined.

Lemma search_web_answer_without_sources_witness :
  format_search_results featured_only ≠ NO_RESULTS
  ∧ ∃ reply,
      ChainInvoke WEB_SEARCH_PROMPT_TEMPLATE
        {[ "search_results" := VStr (format_search_results featured_only);
           "question" := VStr "the answer?" ]} reply
        ∈ trace (@search_web unit (scripted (index_answers (Returns []) featured_only))
                   "the answer?" tt)
      ∧ res (@search_web unit (scripted (index_answers (Returns []) featured_only))
               "the answer?" tt)
          = match reply with
            | Returns answer =>
                Returns {[ "answer" := VStr answer;
                           "sources" := VDicts [];
                           "raw_results" := VRaw featured_only ]}
            | Raises e => Raises e
            end.
Proof.
  apply (@search_web_answer_without_sources unit
           (scripted (index_answers (Returns []) featured_only))
           "the answer?" tt "the answer?" MAX_SEARCH_RESULTS featured_only).
  - vm_compute. left.
  - reflexivity.
  - left. vm_compute. eexists. reflexivity.
  - reflexivity.
Defined.

Lemma query_rag_fallbacks_witness :
  res (@query_rag unit (scripted empty_index) "what changed?" TOP_K_RESULTS tt)
    = Returns {[ "answer" := VStr NO_DOCUMENTS_ANSWER;
                 "sources" := VNames [];
                 "context" := VStr EmptyString ]}
  ∧ res (@query_rag unit (scripted (index_answers (Returns []) sample_results))
           "what changed?" TOP_K_RESULTS tt)
      = Returns {[ "answer" := VStr NOTHING_RELEVANT_ANSWER;
                   "sources" := VNames [];
                   "context" := VStr EmptyString ]}.
Proof.
  split.
  - apply (@query_rag_fallbacks unit (scripted empty_index)
             "what changed?" TOP_K_RESULTS tt).
    reflexivity.
  - apply (proj2 (@query_rag_fallbacks unit
                    (scripted (index_answers (Returns []) sample_results))
                    "what changed?" TOP_K_RESULTS tt)
             "what changed?" TOP_K_RESULTS).
    vm_compute. right. left.
Defined.

(** The result of a fusion in a scripted world. *)
Definition fused (sc : Script) (question : string) (doc_count : Z) : gmap string value :=
  match res (@hybrid_mode unit (scripted sc) question doc_count tt) with
  | Returns d => d
  | Raises _ => ∅
  end.

(** Three chunks of two files and two organic results give two document
    entries followed by two web entries. *)
Lemma hybrid_mode_provenance_witness :
  let docs := [ document "a.pdf" "alpha"; document "b.txt" "beta";
                document "a.pdf" "gamma" ] in
  SimilaritySearch "what changed?" TOP_K_RESULTS (Returns docs)
    ∈ trace (@hybrid_mode unit (scripted (working "hybrid")) "what changed?" 3 tt)
  ∧ RequestsPost "what changed?" MAX_SEARCH_RESULTS (Returns sample_results)
      ∈ trace (@hybrid_mode unit (scripted (working "hybrid")) "what changed?" 3 tt)
  ∧ length docs = 3%nat
  ∧ size (list_to_set ((λ doc, default "Unknown" (metadata doc !! "source")) <$> docs)
            : gset string) = 2%nat
  ∧ fused (working "hybrid") "what changed?" 3 !! "sources"
      = Some (VDicts
                [ {[ "type" := "document"; "name" := "b.txt" ]};
                  {[ "type" := "document"; "name" := "a.pdf" ]};
                  {[ "type" := "web"; "title" := "Release notes";
                     "url" := "https://example.org/notes" ]};
                  {[ "type" := "web"; "title" := "Blog";
                     "url" := "https://example.org/blog" ]} ]).
Proof.
  intros docs. repeat apply conj.
  - vm_compute. do 1 right. left.
  - vm_compute. do 4 right. left.
  - reflexivity.
  - vm_compute. reflexivity.
  - assert (res (@hybrid_mode unit (scripted (working "hybrid")) "what changed?" 3 tt)
            = Returns (fused (working "hybrid") "what changed?" 3)) as Hd
      by (vm_compute; reflexivity).
    destruct (@hybrid_mode_provenance unit (scripted (working "hybrid"))
                "what changed?" 3 tt _ Hd)
      as (found & results & _ & _ & Hstored & Hsources & _ & _ & _ & _ & _ & Hrag & _).
    remember (@list_set unit (scripted (working "hybrid"))
                ((λ doc, default "Unknown" (metadata doc !! "source")) <$> found))
      as names eqn:Hnames.
    clear Hnames Hd.
    specialize (Hrag (rag_dict "from documents" ["b.txt"; "a.pdf"]
                        (format_context docs))).
    assert (VNames ["b.txt"; "a.pdf"] = VNames names) as Hn.
    { apply (inj Some). rewrite <- Hrag; [reflexivity|lia|vm_compute; reflexivity]. }
    injection Hn as <-.
    assert (VRaw sample_results = VRaw results) as Hr.
    { apply (inj Some). rewrite <- Hstored. vm_compute. reflexivity. }
    injection Hr as <-.
    rewrite Hsources. reflexivity.
Defined.

Definition offline : exn := Exn OtherException "index offline".


(** The result of [query_hybrid] in a scripted world. *)
Definition answered (sc : Script) (question : string) (auto_route : bool)
  : gmap string value :=
  match res (@query_hybrid unit (scripted sc) question auto_route tt) with
  | Returns d => d
  | Raises _ => ∅
  end.

Lemma provenance_rests_on_evidence_witness :
  let t := trace (@query_hybrid unit (scripted (working "hybrid")) "what changed?" true tt) in
  let d := answered (working "hybrid") "what changed?" true in
  ∃ answer,
    d !! "answer" = Some (VStr answer)
    ∧ ((d !! "mode" = Some (VStr "documents")
        ∧ ∃ names,
            d !! "sources" = Some (VNames names)
            ∧ cites_documents t answer names)
       ∨ (d !! "mode" = Some (VStr "web")
          ∧ ∃ sources,
              d !! "sources" = Some (VDicts sources)
              ∧ cites_web t answer sources)
       ∨ (d !! "mode" = Some (VStr "hybrid")
          ∧ ∃ names sources,
              d !! "sources"
                = Some (VDicts ((document_entry <$> names) ++ (web_entry <$> sources)))
              ∧ cites_documents t answer names
              ∧ cites_web t answer sources)).
Proof.
  apply (proj2 (proj2 (@provenance_rests_on_evidence unit (scripted (working "hybrid"))))
           "what changed?" true tt (answered (working "hybrid") "what changed?" true)).
  vm_compute. reflexivity.
Defined.

(** C6.  A forced fusion over an empty index: the index is never
    searched, yet the document context handed to the model and reported
    in the result is the empty string of the initial [rag_result], not
    the placeholder given as default to [rag_result.get]. *)
Theorem query_hybrid_empty_index_context :
  let r := @query_hybrid unit (scripted empty_index) "what changed?" false tt in
  no_document_search (trace r)
  ∧ ChainInvoke HYBRID_PROMPT_TEMPLATE
      (fusion_vars "what changed?" (VStr EmptyString) (VStr "an answer"))
      (Returns "an answer") ∈ trace r
  ∧ (∃ d, res r = Returns d ∧ d !! "rag_context" = Some (VStr EmptyString))
  ∧ VStr EmptyString ≠ VStr "No document context available.".
Proof.
  split; [|split; [|split]].
  - vm_compute. repeat constructor.
  - vm_compute. do 5 right. left.
  - eexists. split; vm_compute; reflexivity.
  - discriminate.
Qed.

(** ** Small evaluations of the string and formatting functions *)

Example strip_lower_example : Str.lower (Str.strip "  HyBrid ") = "hybrid".
Proof. reflexivity. Qed.

Example of_nat_example : Str.of_nat 12 = "12".
Proof. reflexivity. Qed.

Example format_nothing_example : format_search_results no_results = NO_RESULTS.
Proof. reflexivity. Qed.

Example format_featured_only_example :
  format_search_results featured_only
    = "[Featured Answer]" +:+ Str.newline +:+ "42" +:+ Str.newline
  ∧ extract_sources featured_only = [].
Proof. split; reflexivity. Qed.

Example format_sample_example :
  formatted_parts sample_results
    = [ format_featured "Version 2";
        format_organic 1 {[ "title" := "Release notes"; "snippet" := "Version 2 is out";
                            "link" := "https://example.org/notes" ]};
        format_organic 2 {[ "title" := "Blog"; "link" := "https://example.org/blog" ]} ].
Proof. reflexivity. Qed.

(** A response with all three parts; the answer box has an empty answer,
    so its snippet is the featured answer, and the second organic result
    has no snippet. *)
Definition full_response : SearchResults :=
  {| organic := Some [ {[ "title" := "Release notes"; "snippet" := "Version 2 is out";
                          "link" := "https://example.org/notes" ]};
                       {[ "title" := "Blog"; "link" := "https://example.org/blog" ]} ];
     answerBox := Some {[ "answer" := EmptyString; "snippet" := "Version 2" ]};
     knowledgeGraph := Some {[ "title" := "Project" ]} |}.

(** A response whose three keys are present and hold nothing usable. *)
Definition hollow_response : SearchResults :=
  {| organic := Some [];
     answerBox := Some {[ "answer" := EmptyString; "title" := "Project" ]};
     knowledgeGraph := Some {[ "type" := "Software" ]} |}.

(** The text of [full_response], and the sentinel for [hollow_response]
    and for it alone of the two. *)
Lemma format_search_results_layout_witness :
  let nl := String "010" EmptyString in
  format_search_results full_response
    = "[Knowledge Graph]" +:+ nl
      +:+ "Title: Project" +:+ nl
      +:+ "Description: " +:+ nl
      +:+ nl
      +:+ "[Featured Answer]" +:+ nl
      +:+ "Version 2" +:+ nl
      +:+ nl
      +:+ "[Result 1]" +:+ nl
      +:+ "Title: Release notes" +:+ nl
      +:+ "Snippet: Version 2 is out" +:+ nl
      +:+ "URL: https://example.org/notes" +:+ nl
      +:+ nl
      +:+ "[Result 2]" +:+ nl
      +:+ "Title: Blog" +:+ nl
      +:+ "Snippet: No description" +:+ nl
      +:+ "URL: https://example.org/blog" +:+ nl
  ∧ format_search_results hollow_response = "No search results found."
  ∧ format_search_results full_response ≠ "No search results found.".
Proof.
  intros nl. repeat apply conj.
  - etrans; [exact (proj1 (format_search_results_layout full_response))|].
    vm_compute. reflexivity.
  - apply (proj2 (format_search_results_layout hollow_response)).
    vm_compute. repeat split.
  - intros Heq.
    apply (proj2 (format_search_results_layout full_response)) in Heq as (Horganic & _).
    discriminate Horganic.
Defined.

(** * Further properties of the agents *)

(** ** The calls one run can make *)

Definition is_post (ev : Event) : bool :=
  match ev with RequestsPost _ _ _ => true | _ => false end.

Definition is_invoke (ev : Event) : bool :=
  match ev with ChainInvoke _ _ _ => true | _ => false end.

Definition is_count (ev : Event) : bool :=
  match ev with CollectionCount _ => true | _ => false end.

(** How many calls of one kind a trace holds. *)
Definition calls (kind : Event → bool) (t : list Event) : nat :=
  length (List.filter kind t).

Lemma calls_app (kind : Event → bool) (t1 t2 : list Event) :
  calls kind (t1 ++ t2) = (calls kind t1 + calls kind t2)%nat.
Proof. unfold calls. now rewrite List.filter_app, length_app. Qed.

Lemma calls_none (kind : Event → bool) (t : list Event) :
  calls kind t = 0%nat ↔ Forall (λ ev, kind ev = false) t.
Proof.
  unfold calls. induction t as [|ev t IH]; simpl.
  - split; [constructor|done].
  - destruct (kind ev) eqn:E; simpl.
    + split; [done|]. intros Hall. apply Forall_cons_1 in Hall as [Hev _]. congruence.
    + rewrite IH. split; [by constructor|]. intros Hall. now apply Forall_cons_1 in Hall.
Qed.

Section Traces.
Context {W : Type} `{!Runtime W}.

(** The traces [route_query] can leave. *)
Inductive route_trace : list Event → Prop :=
| route_trace_empty count :
    route_trace [CollectionCount count]
| route_trace_no_key count metadatas :
    route_trace [CollectionCount count; CollectionGet metadatas]
| route_trace_asked count metadatas vars reply :
    route_trace [CollectionCount count; CollectionGet metadatas; ChatOpenAI;
                 ChainInvoke QUERY_ROUTER_PROMPT vars reply].

Lemma route_query_trace (question : string) (w : W) :
  route_trace (trace (route_query question w)).
Proof.
  unfold route_query, bind. rewrite get_document_count_run. simpl.
  destruct (0 <? count_of (collection_count w).1); simpl; [|constructor].
  destruct (get_all_sources_returns (collection_count w).2) as (sources & -> & ->).
  simpl. rewrite get_llm_run.
  destruct (Str.truthy OPENAI_API_KEY); simpl; [|constructor].
  rewrite invoke_run. simpl.
  destruct (chain_invoke _ _ _).1; simpl; [destruct (bool_decide _)|]; simpl; constructor.
Qed.

(** The traces [query_rag] can leave. *)
Inductive rag_trace (question : string) (k : Z) : list Event → Prop :=
| rag_trace_empty count :
    rag_trace question k [CollectionCount count]
| rag_trace_searched count found :
    rag_trace question k [CollectionCount count; SimilaritySearch question k found]
| rag_trace_asked count found vars reply :
    rag_trace question k
      [CollectionCount count; SimilaritySearch question k found; ChatOpenAI;
       ChainInvoke RAG_PROMPT_TEMPLATE vars reply].

Lemma query_rag_trace (question : string) (k : Z) (w : W) :
  rag_trace question k (trace (query_rag question k w)).
Proof.
  unfold query_rag, bind. rewrite get_document_count_run. simpl.
  destruct (_ =? 0); simpl; [constructor|].
  rewrite similarity_search_run. simpl.
  destruct (vs_similarity_search _ _ _).1 as [[|doc docs]|e]; simpl; try constructor.
  rewrite get_llm_run. destruct (Str.truthy _); simpl; [|constructor].
  rewrite invoke_run. simpl.
  destruct (chain_invoke _ _ _).1; simpl; constructor.
Qed.

(** The traces [search_web] can leave. *)
Inductive web_trace (question : string) : list Event → Prop :=
| web_trace_no_key :
    web_trace question []
| web_trace_posted found :
    web_trace question [RequestsPost question MAX_SEARCH_RESULTS found]
| web_trace_asked found vars reply :
    web_trace question
      [RequestsPost question MAX_SEARCH_RESULTS found; ChatOpenAI;
       ChainInvoke WEB_SEARCH_PROMPT_TEMPLATE vars reply].

Lemma search_web_trace (question : string) (w : W) :
  web_trace question (trace (search_web question w)).
Proof.
  unfold search_web, bind. rewrite search_serper_run.
  destruct (Str.truthy SERPER_API_KEY); simpl; [|constructor].
  destruct (requests_post _ _ _).1; simpl; [|constructor].
  destruct (String.eqb _ _); simpl; [constructor|].
  rewrite get_llm_run. destruct (Str.truthy _); simpl; [|constructor].
  rewrite invoke_run. simpl.
  destruct (chain_invoke _ _ _).1; simpl; constructor.
Qed.

End Traces.

(** ** More on the router *)

Definition OPENAI_KEY_ERROR : exn :=
  Exn ValueError "OPENAI_API_KEY is not set. Please set it in your .env file.".

Definition SERPER_KEY_ERROR : exn :=
  Exn ValueError "SERPER_API_KEY is not set. Please set it in your .env file.".

Section RouterMore.
Context {W : Type} `{!Runtime W}.

(** Whatever the classifier says, a label [route_query] returns is one
    of the three routes. *)
Theorem route_query_label (question : string) (w : W) (route : string) :
  res (route_query question w) = Returns route → route ∈ ROUTES.
Proof.
  unfold route_query, bind. rewrite get_document_count_run. simpl.
  destruct (0 <? count_of (collection_count w).1); simpl.
  2: { intros [= <-]. unfold ROUTES. right. left. }
  destruct (get_all_sources_returns (collection_count w).2) as (sources & -> & _).
  simpl. rewrite get_llm_run.
  destruct (Str.truthy OPENAI_API_KEY); simpl; [|done].
  rewrite invoke_run. simpl.
  destruct (chain_invoke _ _ _).1 as [response|e]; simpl; [|done].
  destruct (bool_decide _) eqn:Hlabel; simpl; intros [= <-].
  - now apply bool_decide_eq_true_1 in Hlabel.
  - unfold ROUTES. do 2 right. left.
Qed.

(** [route_query] can only fail on the way to the model: with documents
    in the index, either the credential is missing, and then the model
    is not called, or the classification call itself raised.  Failures
    of the vector store never surface. *)
Theorem route_query_failure (question : string) (w : W) (e : exn) :
  res (route_query question w) = Raises e →
  0 < count_of (collection_count w).1
  ∧ ((Str.truthy OPENAI_API_KEY = false
      ∧ e = OPENAI_KEY_ERROR
      ∧ no_llm_call (trace (route_query question w)))
     ∨ ∃ vars, ChainInvoke QUERY_ROUTER_PROMPT vars (Raises e)
                 ∈ trace (route_query question w)).
Proof.
  unfold route_query, bind. rewrite get_document_count_run. simpl.
  destruct (0 <? count_of (collection_count w).1) eqn:Hcount; simpl; [|done].
  apply Z.ltb_lt in Hcount.
  destruct (get_all_sources_returns (collection_count w).2) as (sources & -> & ->).
  simpl. rewrite get_llm_run.
  destruct (Str.truthy OPENAI_API_KEY); simpl.
  - rewrite invoke_run. simpl.
    destruct (chain_invoke _ _ _).1 as [response|failure] eqn:Hreply; simpl.
    + now destruct (bool_decide _).
    + intros [= <-]. split; [done|]. right. eexists. do 3 right. left.
  - intros [= <-]. split; [done|]. left. repeat split. repeat constructor.
Qed.

(** A vector store that raises is taken for an empty index: the router
    answers "web" and [query_rag] answers that no documents are
    uploaded, both without any further call. *)
Theorem store_failure_counts_as_empty (question : string) (k : Z) (w : W) (e : exn) :
  (collection_count w).1 = Raises e →
  route_query question w
    = Run (Returns "web") (collection_count w).2 [CollectionCount (Raises e)]
  ∧ query_rag question k w
      = Run (Returns (rag_dict NO_DOCUMENTS_ANSWER [] EmptyString))
            (collection_count w).2 [CollectionCount (Raises e)].
Proof.
  intros Hfail. unfold route_query, query_rag, bind.
  rewrite get_document_count_run, Hfail. simpl. done.
Qed.

End RouterMore.

(** ** More on the vector store reads *)

Section StoreReads.
Context {W : Type} `{!Runtime W}.

(** [get_all_sources] never raises.  It lists each source name found in
    the metadatas once, skips metadatas without a "source" key, and is
    empty when the collection cannot be read. *)
Theorem get_all_sources_unique (w : W) :
  ∃ sources,
    res (get_all_sources w) = Returns sources
    ∧ NoDup sources
    ∧ match (collection_get w).1 with
      | Returns metadatas =>
          ∀ name, name ∈ sources ↔
                  ∃ metadata : gmap string string,
                    metadata ∈ metadatas ∧ metadata !! "source" = Some name
      | Raises _ => sources = []
      end.
Proof.
  unfold get_all_sources, try_except, bind. rewrite call_run. simpl.
  destruct (collection_get w).1 as [metadatas|e]; simpl.
  - eexists. split; [done|]. split; [apply list_set_NoDup|].
    intros name. rewrite list_set_elem, list_elem_of_omap. done.
  - exists []. split; [done|]. split; [constructor|done].
Qed.

End StoreReads.

(** ** More on the web search agent *)

Section WebMore.
Context {W : Type} `{!Runtime W}.

(** The four ways [search_web] fails, none of them caught: no search
    credential (nothing is requested), a failed request (a request error
    is re-raised with the prefix "Serper API request failed: ", any other
    exception as it is), no model credential once there is something to
    answer from, and a failed generation call.  In the first three the
    model is never invoked. *)
Theorem search_web_failure (question : string) (w : W) (e : exn) :
  res (search_web question w) = Raises e →
  (Str.truthy SERPER_API_KEY = false
   ∧ e = SERPER_KEY_ERROR
   ∧ trace (search_web question w) = [])
  ∨ (∃ failure,
       trace (search_web question w)
         = [RequestsPost question MAX_SEARCH_RESULTS (Raises failure)]
       ∧ (exn_cls failure = RequestException →
          e = Exn OtherException ("Serper API request failed: " +:+ exn_msg failure))
       ∧ (exn_cls failure ≠ RequestException → e = failure))
  ∨ (∃ results,
       Str.truthy OPENAI_API_KEY = false
       ∧ e = OPENAI_KEY_ERROR
       ∧ format_search_results results ≠ NO_RESULTS
       ∧ trace (search_web question w)
           = [RequestsPost question MAX_SEARCH_RESULTS (Returns results)])
  ∨ (∃ vars, ChainInvoke WEB_SEARCH_PROMPT_TEMPLATE vars (Raises e)
               ∈ trace (search_web question w)).
Proof.
  unfold search_web, bind. rewrite search_serper_run.
  destruct (Str.truthy SERPER_API_KEY); simpl.
  2: { intros [= <-]. by left. }
  destruct (requests_post question MAX_SEARCH_RESULTS w).1 as [found|failure] eqn:Hreply;
    simpl.
  2: { intros [= <-]. right; left. exists failure. split; [done|].
       unfold serper_failure. destruct failure as [[] msg]; simpl; split; done. }
  destruct (String.eqb (format_search_results found) NO_RESULTS) eqn:Hfmt; simpl; [done|].
  apply String.eqb_neq in Hfmt.
  rewrite get_llm_run. destruct (Str.truthy OPENAI_API_KEY); simpl.
  - rewrite invoke_run. simpl.
    destruct (chain_invoke _ _ _).1 as [answer|failure] eqn:Hanswer; simpl; [done|].
    intros [= <-]. do 3 right. eexists. do 2 right. left.
  - intros [= <-]. do 2 right. left. by exists found.
Qed.

(** The web entries of a fusion follow the organic results one to one
    and in order: the title is the result's title, "Unknown" when it has
    none, and the url is its link, empty when it has none.  The empty
    title that [query_hybrid] gives as default is never used. *)
Theorem web_entries_of_organic (results : SearchResults) :
  length (web_entry <$> extract_sources results)
    = length (default [] (organic results))
  ∧ ∀ i (result : gmap string string),
      default [] (organic results) !! i = Some result →
      (web_entry <$> extract_sources results) !! i
        = Some {[ "type" := "web";
                  "title" := default "Unknown" (result !! "title");
                  "url" := default EmptyString (result !! "link") ]}.
Proof.
  unfold extract_sources. split.
  - now rewrite !length_fmap.
  - intros i result Hi. rewrite !list_lookup_fmap, Hi. reflexivity.
Qed.

End WebMore.

(** ** More on the document agent *)

Section RagMore.
Context {W : Type} `{!Runtime W}.

Lemma format_context_empty (documents : list Document) :
  format_context documents = EmptyString ↔ documents = [].
Proof.
  split; [|now intros ->].
  destruct documents as [|doc docs]; [done|]. intros Hempty. exfalso.
  unfold format_context in Hempty. rewrite imap_cons in Hempty.
  match type of Hempty with
  | Str.join _ (?block :: ?rest) = _ =>
      destruct (join_starts_with "[" Str.newline block rest) as [s' Hs']
  end.
  - eexists. reflexivity.
  - rewrite Hs' in Hempty. discriminate.
Qed.

(** The three ways [query_rag] fails, none of them caught; all need a
    non-empty index.  The similarity search raised; or it returned
    documents and the model credential is missing; or the generation
    call raised.  In the first two the model is never invoked. *)
Theorem query_rag_failure (question : string) (k : Z) (w : W) (e : exn) :
  res (query_rag question k w) = Raises e →
  count_of (collection_count w).1 ≠ 0
  ∧ ((SimilaritySearch question k (Raises e) ∈ trace (query_rag question k w)
      ∧ no_llm_call (trace (query_rag question k w)))
     ∨ (∃ docs,
          docs ≠ []
          ∧ SimilaritySearch question k (Returns docs) ∈ trace (query_rag question k w)
          ∧ Str.truthy OPENAI_API_KEY = false
          ∧ e = OPENAI_KEY_ERROR
          ∧ no_llm_call (trace (query_rag question k w)))
     ∨ ∃ vars, ChainInvoke RAG_PROMPT_TEMPLATE vars (Raises e)
                 ∈ trace (query_rag question k w)).
Proof.
  unfold query_rag, bind. rewrite get_document_count_run. simpl.
  destruct (count_of (collection_count w).1 =? 0) eqn:Hcount; simpl; [done|].
  apply Z.eqb_neq in Hcount.
  rewrite similarity_search_run. simpl.
  destruct (vs_similarity_search _ _ _).1 as [[|doc docs]|failure] eqn:Hdocs; simpl; [done| |].
  - rewrite get_llm_run. destruct (Str.truthy OPENAI_API_KEY); simpl.
    + rewrite invoke_run. simpl.
      destruct (chain_invoke _ _ _).1 as [answer|failure] eqn:Hanswer; simpl; [done|].
      intros [= <-]. split; [done|]. do 2 right. eexists. do 3 right. left.
    + intros [= <-]. split; [done|]. right; left. exists (doc :: docs).
      repeat split; try done; [right; left|repeat constructor].
  - intros [= <-]. split; [done|]. left. split; [right; left|repeat constructor].
Qed.

(** A result of [query_rag] has exactly the keys "answer", "sources" and
    "context", and it names sources exactly when its context is not
    empty. *)
Theorem query_rag_sources_iff_context (question : string) (k : Z) (w : W)
    (d : gmap string value) :
  res (query_rag question k w) = Returns d →
  ∃ answer names context,
    d = rag_dict answer names context
    ∧ dom d = ({[ "answer"; "sources"; "context" ]} : gset string)
    ∧ NoDup names
    ∧ (names = [] ↔ context = EmptyString).
Proof.
  intros Hd.
  destruct (query_rag_returns _ _ _ _ Hd) as [answer Hllm Hdocs|docs answer Hne Hs Hc].
  - exists answer, [], EmptyString. repeat split; constructor.
  - exists answer, (list_set (doc_source <$> docs)), (format_context docs).
    split; [done|split; [|split; [apply list_set_NoDup|]]].
    + reflexivity.
    + rewrite format_context_empty. split; [|done]. intros Hnil. exfalso.
      destruct docs as [|doc docs]; [done|].
      assert (doc_source doc ∈ list_set (doc_source <$> doc :: docs)) as Hin.
      { apply list_set_elem. left. }
      rewrite Hnil in Hin. now apply elem_of_nil in Hin.
Qed.

End RagMore.

(** ** More on the fusion *)

Section HybridMore.
Context {W : Type} `{!Runtime W}.

Lemma documents_step_trace (question : string) (doc_count : Z) (w : W) :
  trace (documents_step question doc_count w)
    = (if 0 <? doc_count then trace (query_rag question TOP_K_RESULTS w) else [])
  ∧ after (documents_step question doc_count w)
    = (if 0 <? doc_count then after (query_rag question TOP_K_RESULTS w) else w).
Proof.
  unfold documents_step, try_except. destruct (0 <? doc_count); [|done].
  destruct (res (query_rag question TOP_K_RESULTS w)); simpl; [done|].
  now rewrite app_nil_r.
Qed.

Lemma web_step_trace (question : string) (w : W) :
  trace (web_step question w) = trace (search_web question w)
  ∧ after (web_step question w) = after (search_web question w).
Proof.
  unfold web_step, try_except.
  destruct (res (search_web question w)); simpl; [done|]. now rewrite app_nil_r.
Qed.

(** The world in which the fusion starts its web search. *)
Definition after_documents (question : string) (doc_count : Z) (w : W) : W :=
  if 0 <? doc_count then after (query_rag question TOP_K_RESULTS w) else w.

(** The order of a fusion: the document agent, only with a positive
    count; then the web agent, always; then at most one construction and
    one invocation of the model with the fusion template. *)
Theorem hybrid_mode_order (question : string) (doc_count : Z) (w : W) :
  ∃ fusion,
    trace (hybrid_mode question doc_count w)
      = (if 0 <? doc_count then trace (query_rag question TOP_K_RESULTS w) else [])
        ++ trace (search_web question (after_documents question doc_count w))
        ++ fusion
    ∧ (fusion = []
       ∨ ∃ vars reply,
           fusion = [ChatOpenAI; ChainInvoke HYBRID_PROMPT_TEMPLATE vars reply]).
Proof.
  destruct (hybrid_mode_run question doc_count w)
    as (answer_r & docs & context & answer_w & results & Hrag & Hweb & Hrun & _).
  simpl in *. rewrite Hrun. simpl.
  destruct (documents_step_trace question doc_count w) as [-> Hafter].
  rewrite Hafter. fold (after_documents question doc_count w).
  destruct (web_step_trace question (after_documents question doc_count w)) as [-> ->].
  eexists. split; [reflexivity|].
  rewrite fuse_run. destruct (Str.truthy OPENAI_API_KEY); simpl; [|by left].
  right. eauto.
Qed.

(** A fusion fails only in its own last step: the model credential is
    missing, or the fusion call raised.  No failure of the document agent
    or of the web agent leaves [hybrid_mode]. *)
Theorem hybrid_mode_failure (question : string) (doc_count : Z) (w : W) (e : exn) :
  res (hybrid_mode question doc_count w) = Raises e →
  (Str.truthy OPENAI_API_KEY = false ∧ e = OPENAI_KEY_ERROR)
  ∨ ∃ vars, ChainInvoke HYBRID_PROMPT_TEMPLATE vars (Raises e)
              ∈ trace (hybrid_mode question doc_count w).
Proof.
  destruct (hybrid_mode_run question doc_count w)
    as (answer_r & docs & context & answer_w & results & Hrag & Hweb & Hrun & _).
  simpl in *. rewrite Hrun. simpl. rewrite fuse_run.
  destruct (Str.truthy OPENAI_API_KEY); simpl.
  - destruct (chain_invoke _ _ _).1 as [answer|failure] eqn:Hreply; simpl; [done|].
    intros [= <-]. right. eexists.
    do 2 (apply elem_of_app; right). right. left.
  - intros [= <-]. by left.
Qed.


End HybridMore.

(** ** More on [query_hybrid] *)

(** A result tagged with the mode that produced it. *)
Definition tagged (mode : string) (r : outcome (gmap string value))
  : outcome (gmap string value) :=
  match r with
  | Returns d => Returns (<["mode" := VStr mode]> d)
  | Raises e => Raises e
  end.

(** Count the calls of explicit trace segments and close the bounds. *)
Ltac count_calls :=
  unfold calls in *;
  cbn [List.filter length is_post is_invoke is_similarity_search is_count];
  repeat split; lia.

Section QueryHybridMore.
Context {W : Type} `{!Runtime W}.

Lemma get_document_count_res (w : W) :
  res (get_document_count w) = Returns (count_of (collection_count w).1).
Proof. now rewrite get_document_count_run. Qed.

Lemma route_query_no_documents_run (question : string) (w : W) :
  res (get_document_count w) = Returns 0 →
  res (route_query question w) = Returns "web"
  ∧ trace (route_query question w) = trace (get_document_count w)
  ∧ after (route_query question w) = after (get_document_count w).
Proof.
  intros Hcount. unfold route_query.
  rewrite (bind_returns _ _ _ _ Hcount). simpl. now rewrite app_nil_r.
Qed.

Lemma calls_route_trace (t : list Event) :
  route_trace t →
  calls is_post t = 0%nat ∧ calls is_similarity_search t = 0%nat
  ∧ (calls is_invoke t ≤ 1)%nat ∧ calls is_count t = 1%nat.
Proof. intros []; cbv; repeat split; lia. Qed.

Lemma calls_rag_trace (question : string) (k : Z) (t : list Event) :
  rag_trace question k t →
  calls is_post t = 0%nat ∧ (calls is_similarity_search t ≤ 1)%nat
  ∧ (calls is_invoke t ≤ 1)%nat ∧ calls is_count t = 1%nat.
Proof. intros []; cbv; repeat split; lia. Qed.

Lemma calls_web_trace (question : string) (t : list Event) :
  web_trace question t →
  (calls is_post t ≤ 1)%nat ∧ calls is_similarity_search t = 0%nat
  ∧ (calls is_invoke t ≤ 1)%nat ∧ calls is_count t = 0%nat.
Proof. intros []; cbv; repeat split; lia. Qed.

(** When the router says "documents", [query_hybrid] is [query_rag] with
    the mode added: the same answer, sources and context, the same
    exception if it raises, and no request to the search API. *)
Theorem query_hybrid_documents_route (question : string) (w : W) :
  let w1 := after (get_document_count w) in
  let w2 := after (route_query question w1) in
  res (route_query question w1) = Returns "documents" →
  res (query_hybrid question true w)
    = tagged "documents" (res (query_rag question TOP_K_RESULTS w2))
  ∧ trace (query_hybrid question true w)
      = trace (get_document_count w) ++ trace (route_query question w1)
        ++ trace (query_rag question TOP_K_RESULTS w2)
  ∧ calls is_post (trace (query_hybrid question true w)) = 0%nat.
Proof.
  intros w1 w2 Hroute.
  assert (Hrun : res (query_hybrid question true w)
                 = tagged "documents" (res (query_rag question TOP_K_RESULTS w2))
                 ∧ trace (query_hybrid question true w)
                   = trace (get_document_count w) ++ trace (route_query question w1)
                     ++ trace (query_rag question TOP_K_RESULTS w2)).
  { subst w1 w2. unfold query_hybrid.
    rewrite (bind_returns _ _ _ _ (get_document_count_res w)). cbn [res after trace].
    rewrite (bind_returns _ _ _ _ Hroute). cbn [res after trace].
    change (String.eqb "documents" "documents") with true. cbv iota.
    unfold bind. destruct (res (query_rag _ _ _)); simpl; rewrite ?app_nil_r; done. }
  destruct Hrun as [Hres Htrace]. split; [done|split; [done|]].
  subst w1 w2. rewrite Htrace, !calls_app.
  destruct (calls_route_trace _
              (route_query_trace question (after (get_document_count w))))
    as (-> & _).
  destruct (calls_rag_trace _ _ _
              (query_rag_trace question TOP_K_RESULTS
                 (after (route_query question (after (get_document_count w))))))
    as (-> & _).
  now rewrite get_document_count_run.
Qed.

Lemma query_hybrid_via_web (question : string) (w : W) :
  let w1 := after (get_document_count w) in
  let w2 := after (route_query question w1) in
  res (route_query question w1) = Returns "web" →
  res (query_hybrid question true w) = tagged "web" (res (search_web question w2))
  ∧ trace (query_hybrid question true w)
      = trace (get_document_count w) ++ trace (route_query question w1)
        ++ trace (search_web question w2).
Proof.
  intros w1 w2 Hroute. subst w1 w2. unfold query_hybrid.
  rewrite (bind_returns _ _ _ _ (get_document_count_res w)). cbn [res after trace].
  rewrite (bind_returns _ _ _ _ Hroute). cbn [res after trace].
  change (String.eqb "web" "documents") with false.
  change (String.eqb "web" "web") with true. cbv iota.
  unfold bind. destruct (res (search_web _ _)); simpl; rewrite ?app_nil_r; done.
Qed.

(** When the router says "web", [query_hybrid] is [search_web] with the
    mode added, and the index is never searched. *)
Theorem query_hybrid_web_route (question : string) (w : W) :
  let w1 := after (get_document_count w) in
  let w2 := after (route_query question w1) in
  res (route_query question w1) = Returns "web" →
  res (query_hybrid question true w) = tagged "web" (res (search_web question w2))
  ∧ trace (query_hybrid question true w)
      = trace (get_document_count w) ++ trace (route_query question w1)
        ++ trace (search_web question w2)
  ∧ calls is_similarity_search (trace (query_hybrid question true w)) = 0%nat.
Proof.
  intros w1 w2 Hroute.
  destruct (query_hybrid_via_web question w Hroute) as [Hres Htrace].
  split; [done|split; [done|]].
  subst w1 w2. rewrite Htrace, !calls_app.
  destruct (calls_route_trace _
              (route_query_trace question (after (get_document_count w))))
    as (_ & -> & _).
  destruct (calls_web_trace _ _
              (search_web_trace question
                 (after (route_query question (after (get_document_count w))))))
    as (_ & -> & _).
  now rewrite get_document_count_run.
Qed.

(** Over an empty index an auto-routed query is a web search: the index
    is counted twice and nothing else is asked of it, and the model is
    not asked to classify. *)
Theorem query_hybrid_empty_index (question : string) (w : W) :
  let w1 := after (get_document_count w) in
  let w2 := after (get_document_count w1) in
  res (get_document_count w1) = Returns 0 →
  res (query_hybrid question true w) = tagged "web" (res (search_web question w2))
  ∧ trace (query_hybrid question true w)
      = trace (get_document_count w) ++ trace (get_document_count w1)
        ++ trace (search_web question w2)
  ∧ ∀ vars reply,
      ChainInvoke QUERY_ROUTER_PROMPT vars reply ∉ trace (query_hybrid question true w).
Proof.
  intros w1 w2 Hcount.
  destruct (route_query_no_documents_run question w1 Hcount) as (Hres & Htrace & Hafter).
  destruct (query_hybrid_via_web question w) as (Hweb & Htr); [done|].
  fold w1 in Hweb, Htr. rewrite Hafter in Hweb, Htr. fold w2 in Hweb, Htr.
  rewrite Htrace in Htr. split; [done|split; [done|]].
  intros vars reply Hin. rewrite Htr in Hin.
  rewrite !get_document_count_run in Hin. simpl in Hin.
  do 2 (apply elem_of_cons in Hin as [Hin|Hin]; [discriminate|]).
  apply search_web_template in Hin. discriminate.
Qed.

Lemma calls_hybrid_mode (question : string) (doc_count : Z) (w : W) :
  (calls is_post (trace (hybrid_mode question doc_count w)) ≤ 1)%nat
  ∧ (calls is_similarity_search (trace (hybrid_mode question doc_count w)) ≤ 1)%nat
  ∧ (calls is_invoke (trace (hybrid_mode question doc_count w)) ≤ 3)%nat
  ∧ (calls is_count (trace (hybrid_mode question doc_count w)) ≤ 1)%nat.
Proof.
  destruct (hybrid_mode_run question doc_count w)
    as (answer_r & docs & context & answer_w & results & Hrag & Hweb & Hrun & _).
  simpl in *. rewrite Hrun. cbn [trace]. rewrite !calls_app.
  destruct (documents_step_trace question doc_count w) as [-> _].
  destruct (web_step_trace question (after (documents_step question doc_count w)))
    as [-> _].
  pose proof (calls_web_trace _ _
                (search_web_trace question
                   (after (documents_step question doc_count w)))) as (? & ? & ? & ?).
  set (documents_trace :=
         if 0 <? doc_count then trace (query_rag question TOP_K_RESULTS w) else []).
  assert (Hdocs : (calls is_post documents_trace = 0
                   ∧ calls is_similarity_search documents_trace ≤ 1
                   ∧ calls is_invoke documents_trace ≤ 1
                   ∧ calls is_count documents_trace ≤ 1)%nat).
  { subst documents_trace. destruct (0 <? doc_count); [|cbv; repeat split; lia].
    pose proof (calls_rag_trace _ _ _ (query_rag_trace question TOP_K_RESULTS w))
      as (? & ? & ? & ?). repeat split; lia. }
  destruct Hdocs as (? & ? & ? & ?).
  rewrite fuse_run.
  destruct (Str.truthy OPENAI_API_KEY); cbn [trace]; count_calls.
Qed.

(** The segments of a [query_hybrid] trace: the count, then the router
    when auto-routing, then one of the three ways to answer. *)
Lemma query_hybrid_trace (question : string) (auto_route : bool) (w : W) :
  ∃ routing answering,
    trace (query_hybrid question auto_route w)
      = [CollectionCount (collection_count w).1] ++ routing ++ answering
    ∧ (routing = [] ∨ route_trace routing)
    ∧ (answering = []
       ∨ rag_trace question TOP_K_RESULTS answering
       ∨ web_trace question answering
       ∨ ∃ n w', answering = trace (hybrid_mode question n w')).
Proof.
  unfold query_hybrid.
  rewrite (bind_returns _ _ _ _ (get_document_count_res w)). cbn [res after trace].
  rewrite get_document_count_run. cbn [trace after].
  destruct auto_route.
  - exists (trace (route_query question (collection_count w).2)).
    pose proof (route_query_trace question (collection_count w).2) as Hroute.
    unfold bind at 1.
    destruct (res (route_query question (collection_count w).2)) as [route|e];
      cbn [res after trace].
    + destruct (String.eqb route "documents"); [|destruct (String.eqb route "web")].
      * eexists. split; [reflexivity|]. split; [by right|]. right; left.
        unfold bind. destruct (res (query_rag _ _ _)); cbn [trace];
          rewrite ?app_nil_r; apply query_rag_trace.
      * eexists. split; [reflexivity|]. split; [by right|]. do 2 right; left.
        unfold bind. destruct (res (search_web _ _)); cbn [trace];
          rewrite ?app_nil_r; apply search_web_trace.
      * eexists. split; [reflexivity|]. split; [by right|]. do 3 right. eauto.
    + exists []. rewrite app_nil_r. split; [done|]. split; [by right|by left].
  - exists [], (trace (hybrid_mode question (count_of (collection_count w).1)
                         (collection_count w).2)).
    split; [done|]. split; [by left|]. do 3 right. eauto.
Qed.

(** One query never repeats a call: [query_hybrid] sends at most one
    search request and one similarity search, counts the index at most
    three times and invokes the model at most four times (to classify,
    for each of the two agents, and to fuse). *)
Theorem query_hybrid_call_bounds (question : string) (auto_route : bool) (w : W) :
  let t := trace (query_hybrid question auto_route w) in
  (calls is_post t ≤ 1)%nat
  ∧ (calls is_similarity_search t ≤ 1)%nat
  ∧ (calls is_invoke t ≤ 4)%nat
  ∧ (calls is_count t ≤ 3)%nat.
Proof.
  intros t. subst t.
  destruct (query_hybrid_trace question auto_route w)
    as (routing & answering & -> & Hrouting & Hanswering).
  rewrite !calls_app.
  assert (calls is_post routing = 0 ∧ calls is_similarity_search routing = 0
          ∧ calls is_invoke routing ≤ 1 ∧ calls is_count routing ≤ 1)%nat
    as (? & ? & ? & ?).
  { destruct Hrouting as [->|Hroute]; [cbv; repeat split; lia|].
    apply calls_route_trace in Hroute as (? & ? & ? & ?). repeat split; lia. }
  assert (calls is_post answering ≤ 1 ∧ calls is_similarity_search answering ≤ 1
          ∧ calls is_invoke answering ≤ 3 ∧ calls is_count answering ≤ 1)%nat
    as (? & ? & ? & ?).
  { destruct Hanswering as [->|[Hrag|[Hweb|(n & w' & ->)]]].
    - cbv; repeat split; lia.
    - apply calls_rag_trace in Hrag as (? & ? & ? & ?). repeat split; lia.
    - apply calls_web_trace in Hweb as (? & ? & ? & ?). repeat split; lia.
    - apply calls_hybrid_mode. }
  count_calls.
Qed.

End QueryHybridMore.

(** ** Concrete runs for the further properties *)

Definition timeout : exn := Exn RequestException "connection timed out".
Definition rate_limit : exn := Exn OtherException "rate limit reached".

(** The script [sc] with another model credential. *)
Definition with_openai_key (key : string) (sc : Script) : Script :=
  {| s_openai_key := key; s_serper_key := s_serper_key sc;
     s_count := s_count sc; s_metadatas := s_metadatas sc;
     s_documents := s_documents sc; s_chat := s_chat sc; s_search := s_search sc |}.

(** The script [sc] with a model that raises on every call. *)
Definition with_failing_chat (e : exn) (sc : Script) : Script :=
  {| s_openai_key := s_openai_key sc; s_serper_key := s_serper_key sc;
     s_count := s_count sc; s_metadatas := s_metadatas sc;
     s_documents := s_documents sc; s_chat := λ _, Raises e; s_search := s_search sc |}.

(** The script [sc] with another reply of the search API. *)
Definition with_search (reply : outcome SearchResults) (sc : Script) : Script :=
  {| s_openai_key := s_openai_key sc; s_serper_key := s_serper_key sc;
     s_count := s_count sc; s_metadatas := s_metadatas sc;
     s_documents := s_documents sc; s_chat := s_chat sc; s_search := reply |}.

(** The script [sc] with another reply to the count. *)
Definition with_count (reply : outcome Z) (sc : Script) : Script :=
  {| s_openai_key := s_openai_key sc; s_serper_key := s_serper_key sc;
     s_count := reply; s_metadatas := s_metadatas sc;
     s_documents := s_documents sc; s_chat := s_chat sc; s_search := s_search sc |}.

Lemma route_query_label_witness : "hybrid" ∈ ROUTES.
Proof.
  apply (@route_query_label unit (scripted (working "no idea")) "what changed?" tt).
  reflexivity.
Defined.

Lemma route_query_failure_witness :
  0 < 3
  ∧ ((Str.truthy EmptyString = false
      ∧ OPENAI_KEY_ERROR = OPENAI_KEY_ERROR
      ∧ no_llm_call
          (trace (@route_query unit
                    (scripted (with_openai_key EmptyString (working "web")))
                    "what changed?" tt)))
     ∨ ∃ vars, ChainInvoke QUERY_ROUTER_PROMPT vars (Raises OPENAI_KEY_ERROR)
                 ∈ trace (@route_query unit
                            (scripted (with_openai_key EmptyString (working "web")))
                            "what changed?" tt)).
Proof.
  apply (@route_query_failure unit
           (scripted (with_openai_key EmptyString (working "web")))
           "what changed?" tt OPENAI_KEY_ERROR).
  reflexivity.
Defined.

Lemma store_failure_counts_as_empty_witness :
  @route_query unit (scripted (with_count (Raises rate_limit) (working "web")))
    "what changed?" tt
    = Run (Returns "web") tt [CollectionCount (Raises rate_limit)]
  ∧ @query_rag unit (scripted (with_count (Raises rate_limit) (working "web")))
      "what changed?" TOP_K_RESULTS tt
      = Run (Returns (rag_dict NO_DOCUMENTS_ANSWER [] EmptyString)) tt
            [CollectionCount (Raises rate_limit)].
Proof.
  apply (@store_failure_counts_as_empty unit
           (scripted (with_count (Raises rate_limit) (working "web")))
           "what changed?" TOP_K_RESULTS tt rate_limit).
  reflexivity.
Defined.

(** A timed-out request surfaces from [search_web] with the prefix. *)
Definition timed_out : Script := with_search (Raises timeout) (working "web").

Definition wrapped_timeout : exn :=
  Exn OtherException "Serper API request failed: connection timed out".

Lemma search_web_failure_witness :
  (Str.truthy "serper-test" = false
   ∧ wrapped_timeout = SERPER_KEY_ERROR
   ∧ trace (@search_web unit (scripted timed_out) "what changed?" tt) = [])
  ∨ (∃ failure,
       trace (@search_web unit (scripted timed_out) "what changed?" tt)
         = [RequestsPost "what changed?" MAX_SEARCH_RESULTS (Raises failure)]
       ∧ (exn_cls failure = RequestException →
          wrapped_timeout
            = Exn OtherException ("Serper API request failed: " +:+ exn_msg failure))
       ∧ (exn_cls failure ≠ RequestException → wrapped_timeout = failure))
  ∨ (∃ results,
       Str.truthy "sk-test" = false
       ∧ wrapped_timeout = OPENAI_KEY_ERROR
       ∧ format_search_results results ≠ NO_RESULTS
       ∧ trace (@search_web unit (scripted timed_out) "what changed?" tt)
           = [RequestsPost "what changed?" MAX_SEARCH_RESULTS (Returns results)])
  ∨ (∃ vars, ChainInvoke WEB_SEARCH_PROMPT_TEMPLATE vars (Raises wrapped_timeout)
               ∈ trace (@search_web unit (scripted timed_out) "what changed?" tt)).
Proof.
  apply (@search_web_failure unit (scripted timed_out) "what changed?" tt wrapped_timeout).
  reflexivity.
Defined.

Lemma query_rag_failure_witness :
  3 ≠ 0
  ∧ ((SimilaritySearch "what changed?" TOP_K_RESULTS (Raises offline)
        ∈ trace (@query_rag unit
                   (scripted (index_answers (Raises offline) sample_results))
                   "what changed?" TOP_K_RESULTS tt)
      ∧ no_llm_call
          (trace (@query_rag unit
                    (scripted (index_answers (Raises offline) sample_results))
                    "what changed?" TOP_K_RESULTS tt)))
     ∨ (∃ docs,
          docs ≠ []
          ∧ SimilaritySearch "what changed?" TOP_K_RESULTS (Returns docs)
              ∈ trace (@query_rag unit
                         (scripted (index_answers (Raises offline) sample_results))
                         "what changed?" TOP_K_RESULTS tt)
          ∧ Str.truthy "sk-test" = false
          ∧ offline = OPENAI_KEY_ERROR
          ∧ no_llm_call
              (trace (@query_rag unit
                        (scripted (index_answers (Raises offline) sample_results))
                        "what changed?" TOP_K_RESULTS tt)))
     ∨ ∃ vars, ChainInvoke RAG_PROMPT_TEMPLATE vars (Raises offline)
                 ∈ trace (@query_rag unit
                            (scripted (index_answers (Raises offline) sample_results))
                            "what changed?" TOP_K_RESULTS tt)).
Proof.
  apply (@query_rag_failure unit
           (scripted (index_answers (Raises offline) sample_results))
           "what changed?" TOP_K_RESULTS tt offline).
  reflexivity.
Defined.

Lemma query_rag_sources_iff_context_witness :
  ∃ answer names context,
    rag_dict "from documents" ["b.txt"; "a.pdf"]
      (format_context [ document "a.pdf" "alpha"; document "b.txt" "beta";
                        document "a.pdf" "gamma" ])
      = rag_dict answer names context
    ∧ dom (rag_dict "from documents" ["b.txt"; "a.pdf"]
             (format_context [ document "a.pdf" "alpha"; document "b.txt" "beta";
                               document "a.pdf" "gamma" ]))
        = ({[ "answer"; "sources"; "context" ]} : gset string)
    ∧ NoDup names
    ∧ (names = [] ↔ context = EmptyString).
Proof.
  apply (@query_rag_sources_iff_context unit (scripted (working "documents"))
           "what changed?" TOP_K_RESULTS tt).
  vm_compute. reflexivity.
Defined.


Lemma hybrid_mode_failure_witness :
  (Str.truthy "sk-test" = false ∧ rate_limit = OPENAI_KEY_ERROR)
  ∨ ∃ vars, ChainInvoke HYBRID_PROMPT_TEMPLATE vars (Raises rate_limit)
              ∈ trace (@hybrid_mode unit
                         (scripted (with_failing_chat rate_limit (working "hybrid")))
                         "what changed?" 3 tt).
Proof.
  apply (@hybrid_mode_failure unit
           (scripted (with_failing_chat rate_limit (working "hybrid")))
           "what changed?" 3 tt rate_limit).
  vm_compute. reflexivity.
Defined.


Lemma query_hybrid_documents_route_witness :
  res (@query_hybrid unit (scripted (working "documents")) "what changed?" true tt)
    = tagged "documents"
        (res (@query_rag unit (scripted (working "documents"))
                "what changed?" TOP_K_RESULTS tt))
  ∧ trace (@query_hybrid unit (scripted (working "documents")) "what changed?" true tt)
      = trace (@get_document_count unit (scripted (working "documents")) tt)
        ++ trace (@route_query unit (scripted (working "documents")) "what changed?" tt)
        ++ trace (@query_rag unit (scripted (working "documents"))
                    "what changed?" TOP_K_RESULTS tt)
  ∧ calls is_post
      (trace (@query_hybrid unit (scripted (working "documents"))
                "what changed?" true tt)) = 0%nat.
Proof.
  apply (@query_hybrid_documents_route unit (scripted (working "documents"))
           "what changed?" tt).
  vm_compute. reflexivity.
Defined.

Lemma query_hybrid_web_route_witness :
  res (@query_hybrid unit (scripted (working " WEB ")) "what changed?" true tt)
    = tagged "web"
        (res (@search_web unit (scripted (working " WEB ")) "what changed?" tt))
  ∧ trace (@query_hybrid unit (scripted (working " WEB ")) "what changed?" true tt)
      = trace (@get_document_count unit (scripted (working " WEB ")) tt)
        ++ trace (@route_query unit (scripted (working " WEB ")) "what changed?" tt)
        ++ trace (@search_web unit (scripted (working " WEB ")) "what changed?" tt)
  ∧ calls is_similarity_search
      (trace (@query_hybrid unit (scripted (working " WEB "))
                "what changed?" true tt)) = 0%nat.
Proof.
  apply (@query_hybrid_web_route unit (scripted (working " WEB ")) "what changed?" tt).
  vm_compute. reflexivity.
Defined.

Lemma query_hybrid_empty_index_witness :
  res (@query_hybrid unit (scripted empty_index) "what changed?" true tt)
    = tagged "web" (res (@search_web unit (scripted empty_index) "what changed?" tt))
  ∧ trace (@query_hybrid unit (scripted empty_index) "what changed?" true tt)
      = trace (@get_document_count unit (scripted empty_index) tt)
        ++ trace (@get_document_count unit (scripted empty_index) tt)
        ++ trace (@search_web unit (scripted empty_index) "what changed?" tt)
  ∧ ∀ vars reply,
      ChainInvoke QUERY_ROUTER_PROMPT vars reply
        ∉ trace (@query_hybrid unit (scripted empty_index) "what changed?" true tt).
Proof.
  apply (@query_hybrid_empty_index unit (scripted empty_index) "what changed?" tt).
  reflexivity.
Defined.

(** * utils/document_processor.py *)

(** [os.path.splitext] on POSIX paths: the extension starts at the last
    dot of the last path component, leading dots of that component not
    counted; it is empty when there is no such dot. *)
Module Path.

(** Split [s] before the last occurrence of [c]. *)
Fixpoint rsplit (c : ascii) (s : string) : option (string * string) :=
  match s with
  | EmptyString => None
  | String a s' =>
      match rsplit c s' with
      | Some (l, r) => Some (String a l, r)
      | None => if Ascii.eqb a c then Some (EmptyString, s) else None
      end
  end.

(** The leading dots of a component and what follows them. *)
Fixpoint leading_dots (s : string) : string * string :=
  match s with
  | String "." s' => let (dots, rest) := leading_dots s' in (String "." dots, rest)
  | _ => (EmptyString, s)
  end.

Definition splitext (p : string) : string * string :=
  let (dir, base) :=
    match rsplit "/" p with
    | Some (l, String _ r) => (l +:+ "/", r)
    | _ => (EmptyString, p)
    end in
  let (dots, rest) := leading_dots base in
  match rsplit "." rest with
  | Some (stem, ext) => (dir +:+ dots +:+ stem, ext)
  | None => (p, EmptyString)
  end.

End Path.

(** config.py *)
Definition CHUNK_SIZE : Z := 1000.
Definition CHUNK_OVERLAP : Z := 200.

(** A metadata value of a chunk: a string or the chunk index. *)
Inductive meta :=
| MStr (s : string)
| MInt (i : Z).

(** A [Document] as [chunk_text] builds it. *)
Record Chunk := { chunk_content : string; chunk_metadata : gmap string meta }.

(** A Streamlit uploaded file: its name and what [read()] gives. *)
Record UploadedFile := { name : string; read : outcome (list Byte.byte) }.

Section DocumentProcessor.

(** [bytes.decode('utf-8')] *)
Variable decode_utf8 : list Byte.byte → outcome string.
(** [page.extract_text()] of every page of [PdfReader(io.BytesIO(data))] *)
Variable pdf_page_texts : list Byte.byte → outcome (list string).
(** [RecursiveCharacterTextSplitter(chunk_size, chunk_overlap, ...).split_text] *)
Variable split_text : Z → Z → string → outcome (list string).

Definition and_then {A B} (r : outcome A) (k : A → outcome B) : outcome B :=
  match r with
  | Returns a => k a
  | Raises e => Raises e
  end.

Definition extension (file_name : string) : string :=
  Str.lower (Path.splitext file_name).2.

Definition load_uploaded_file (uploaded_file : UploadedFile) : outcome string :=
  let ext := extension (name uploaded_file) in
  if String.eqb ext ".pdf" then
    and_then (read uploaded_file) (λ data,
    and_then (pdf_page_texts data) (λ pages,
    Returns (fold_left (λ text page, text +:+ page +:+ Str.newline) pages EmptyString)))
  else if bool_decide (ext ∈ [".txt"; ".md"]) then
    and_then (read uploaded_file) decode_utf8
  else Raises (Exn ValueError ("Unsupported file type: " +:+ ext)).

Definition chunk_text (text : string) (chunk_size chunk_overlap : Z)
    (metadata : option (gmap string meta)) : outcome (list Chunk) :=
  and_then (split_text chunk_size chunk_overlap text) (λ chunks,
  Returns (imap (λ i chunk,
                   {| chunk_content := chunk;
                      chunk_metadata :=
                        <["chunk_index" := MInt (Z.of_nat i)]> (default ∅ metadata) |})
                chunks)).

Definition process_uploaded_file (uploaded_file : UploadedFile) : outcome (list Chunk) :=
  and_then (load_uploaded_file uploaded_file) (λ text,
  let metadata : gmap string meta :=
    {[ "source" := MStr (name uploaded_file);
       "file_type" := MStr (extension (name uploaded_file)) ]} in
  chunk_text text CHUNK_SIZE CHUNK_OVERLAP (Some metadata)).

End DocumentProcessor.

Example splitext_examples :
  Path.splitext "notes.txt" = ("notes", ".txt")
  ∧ Path.splitext "archive.tar.gz" = ("archive.tar", ".gz")
  ∧ Path.splitext ".bashrc" = (".bashrc", EmptyString)
  ∧ Path.splitext "docs.v2/readme" = ("docs.v2/readme", EmptyString)
  ∧ Path.splitext "docs/..hidden.md" = ("docs/..hidden", ".md")
  ∧ Path.splitext "trailing." = ("trailing", ".").
Proof. repeat split. Qed.

Section DocumentProcessorFacts.
Variable decode_utf8 : list Byte.byte → outcome string.
Variable pdf_page_texts : list Byte.byte → outcome (list string).
Variable split_text : Z → Z → string → outcome (list string).


Lemma load_uploaded_file_unsupported (uploaded_file : UploadedFile) :
  extension (name uploaded_file) ∉ [".pdf"; ".txt"; ".md"] →
  load_uploaded_file decode_utf8 pdf_page_texts uploaded_file
    = Raises (Exn ValueError
                ("Unsupported file type: " +:+ extension (name uploaded_file))).
Proof.
  intros Hext. unfold load_uploaded_file.
  destruct (String.eqb_spec (extension (name uploaded_file)) ".pdf") as [Hpdf|Hpdf].
  { exfalso. apply Hext. rewrite Hpdf. left. }
  rewrite bool_decide_eq_false_2; [done|].
  intros Hin. apply Hext. now right.
Qed.

(** A file whose extension, lowercased, is none of ".pdf", ".txt" and
    ".md" is refused with a [ValueError] naming the extension, whatever
    reading it would give, and no chunk is made. *)
Theorem process_uploaded_file_unsupported (uploaded_file : UploadedFile) :
  extension (name uploaded_file) ∉ [".pdf"; ".txt"; ".md"] →
  process_uploaded_file decode_utf8 pdf_page_texts split_text uploaded_file
    = Raises (Exn ValueError
                ("Unsupported file type: " +:+ extension (name uploaded_file))).
Proof.
  intros Hext. unfold process_uploaded_file.
  now rewrite (load_uploaded_file_unsupported _ Hext).
Qed.

(** [chunk_text] numbers the chunks from 0 in the order of the splitter;
    the index replaces a "chunk_index" of the caller's metadata and every
    other entry of that metadata is carried by each chunk. *)
Theorem chunk_text_metadata (text : string) (chunk_size chunk_overlap : Z)
    (metadata : option (gmap string meta)) (documents : list Chunk) :
  chunk_text split_text text chunk_size chunk_overlap metadata = Returns documents →
  ∃ chunks,
    split_text chunk_size chunk_overlap text = Returns chunks
    ∧ length documents = length chunks
    ∧ ∀ i doc, documents !! i = Some doc →
        chunks !! i = Some (chunk_content doc)
        ∧ chunk_metadata doc !! "chunk_index" = Some (MInt (Z.of_nat i))
        ∧ ∀ key, key ≠ "chunk_index" →
            chunk_metadata doc !! key = default ∅ metadata !! key.
Proof.
  unfold chunk_text, and_then.
  destruct (split_text chunk_size chunk_overlap text) as [chunks|e] eqn:Hsplit; [|done].
  intros [= <-]. exists chunks. split; [done|]. split; [apply length_imap|].
  intros i doc Hdoc. rewrite list_lookup_imap in Hdoc.
  destruct (chunks !! i) as [chunk|]; simplify_eq/=.
  split; [done|]. split; [apply lookup_insert_eq|].
  intros key Hkey. now apply lookup_insert_ne.
Qed.

(** Every chunk of a processed upload carries the file name as
    "source", the lowercased extension as "file_type" and its position
    as "chunk_index", and nothing else; the extension is one of the three
    supported ones. *)
Theorem process_uploaded_file_chunks (uploaded_file : UploadedFile)
    (documents : list Chunk) :
  process_uploaded_file decode_utf8 pdf_page_texts split_text uploaded_file
    = Returns documents →
  extension (name uploaded_file) ∈ [".pdf"; ".txt"; ".md"]
  ∧ ∃ text chunks,
      load_uploaded_file decode_utf8 pdf_page_texts uploaded_file = Returns text
      ∧ split_text CHUNK_SIZE CHUNK_OVERLAP text = Returns chunks
      ∧ length documents = length chunks
      ∧ ∀ i chunk, chunks !! i = Some chunk →
          documents !! i
            = Some {| chunk_content := chunk;
                      chunk_metadata :=
                        {[ "chunk_index" := MInt (Z.of_nat i);
                           "source" := MStr (name uploaded_file);
                           "file_type" := MStr (extension (name uploaded_file)) ]} |}.
Proof.
  intros Hdocs.
  assert (Hext : extension (name uploaded_file) ∈ [".pdf"; ".txt"; ".md"]).
  { destruct (decide (extension (name uploaded_file) ∈ [".pdf"; ".txt"; ".md"]))
      as [Hin|Hout]; [done|].
    unfold process_uploaded_file in Hdocs.
    rewrite (load_uploaded_file_unsupported _ Hout) in Hdocs. discriminate. }
  split; [done|]. revert Hdocs.
  unfold process_uploaded_file, and_then at 1.
  destruct (load_uploaded_file decode_utf8 pdf_page_texts uploaded_file) as [text|e];
    [|done].
  unfold chunk_text, and_then.
  destruct (split_text CHUNK_SIZE CHUNK_OVERLAP text) as [chunks|e] eqn:Hsplit; [|done].
  intros [= <-]. exists text, chunks. split; [done|]. split; [done|].
  split; [apply length_imap|].
  intros i chunk Hi. now rewrite list_lookup_imap, Hi.
Qed.

End DocumentProcessorFacts.

(** * utils/vector_store.py, with its cache and its writes

    The agents above see the vector store as one external call.  This
    module opens it up: the cached handle [_vector_store], the
    construction of the store on first use, and the functions that add
    and delete documents.  The Chroma collection itself stays external:
    its methods answer or raise and leave a new database state [C]. *)

Module VectorStore.

(** What [collection.get(...)] answers: the ids and, aligned with them,
    the metadatas ([None] where a document has none). *)
Record GetResult := {
  ids : list string;
  metadatas : list (option (gmap string string))
}.

(** The calls that leave the module, each with its reply. *)
Inductive Call (H : Type) :=
| MakeDirs (reply : outcome unit)
| NewChroma (reply : outcome H)
| CountCall (h : H) (reply : outcome Z)
| GetCall (h : H) (reply : outcome GetResult)
| DeleteCall (h : H) (doc_ids : list string) (reply : outcome unit)
| AddCall (h : H) (documents : list Chunk) (reply : outcome unit).
Arguments MakeDirs {H} reply.
Arguments NewChroma {H} reply.
Arguments CountCall {H} h reply.
Arguments GetCall {H} h reply.
Arguments DeleteCall {H} h doc_ids reply.
Arguments AddCall {H} h documents reply.

(** The database behind the module: handles [H], states [C]. *)
Class Chroma (H C : Type) := {
  OPENAI_API_KEY : string;
  (** [os.makedirs(CHROMA_PERSIST_DIRECTORY, exist_ok=True)] *)
  makedirs : C → outcome unit * C;
  (** [Chroma(collection_name=..., embedding_function=..., persist_directory=...)] *)
  new_chroma : C → outcome H * C;
  (** [vector_store._collection.count()] *)
  collection_count : H → C → outcome Z * C;
  (** [collection.get(...)] *)
  collection_get : H → C → outcome GetResult * C;
  (** [collection.delete(ids=doc_ids)] *)
  collection_delete : H → list string → C → outcome unit * C;
  (** [vector_store.add_documents(documents)] *)
  store_add_documents : H → list Chunk → C → outcome unit * C
}.

(** The state of the module: the global [_vector_store] and the database. *)
Record State (H C : Type) := {
  _vector_store : option H;
  database : C
}.
Arguments Build_State {H C} _ _.
Arguments _vector_store {H C} s.
Arguments database {H C} s.

Record Ran (H C A : Type) := Run {
  res : outcome A;
  after : State H C;
  trace : list (Call H)
}.
Arguments Run {H C A} res after trace.
Arguments res {H C A} r.
Arguments after {H C A} r.
Arguments trace {H C A} r.

Section Functions.
Context {H C : Type} `{!Chroma H C}.

Definition V (A : Type) : Type := State H C → Ran H C A.

Definition ret {A} (a : A) : V A := λ s, Run (Returns a) s [].

Definition raise {A} (e : exn) : V A := λ s, Run (Raises e) s [].

Definition bind {A B} (m : V A) (k : A → V B) : V B :=
  λ s, let r := m s in
       match res r with
       | Returns a =>
           let r' := k a (after r) in
           Run (res r') (after r') (trace r ++ trace r')
       | Raises e => Run (Raises e) (after r) (trace r)
       end.

Definition try_except {A} (m : V A) (h : exn → V A) : V A :=
  λ s, let r := m s in
       match res r with
       | Returns a => r
       | Raises e =>
           let r' := h e (after r) in
           Run (res r') (after r') (trace r ++ trace r')
       end.

(** One call to the database; the cache is not touched. *)
Definition call {A} (ev : outcome A → Call H) (method : C → outcome A * C) : V A :=
  λ s, let (r, c') := method (database s) in
       Run r (Build_State (_vector_store s) c') [ev r].

(** [utils/embeddings.py]: the check in front of [OpenAIEmbeddings(...)]. *)
Definition get_embeddings_model : V unit :=
  if negb (Str.truthy OPENAI_API_KEY)
  then raise (Exn ValueError "OPENAI_API_KEY is not set. Please set it in your .env file.")
  else ret tt.

Definition get_vector_store : V H :=
  λ s, match _vector_store s with
       | Some vector_store => ret vector_store s
       | None =>
           bind (call MakeDirs makedirs) (λ _,
           bind get_embeddings_model (λ _,
           bind (call NewChroma new_chroma) (λ vector_store,
           λ s', Run (Returns vector_store)
                     (Build_State (Some vector_store) (database s')) []))) s
       end.

Definition add_documents (documents : list Chunk) : V unit :=
  bind get_vector_store (λ vector_store,
  call (AddCall vector_store documents) (store_add_documents vector_store documents)).

Definition get_document_count : V Z :=
  try_except
    (bind get_vector_store (λ vector_store,
     call (CountCall vector_store) (collection_count vector_store)))
    (λ _, ret 0).

(** The loop of [delete_documents_by_source] that collects the ids. *)
Definition ids_to_delete (source : string) (results : GetResult) : list string :=
  match ids results, metadatas results with
  | _ :: _, _ :: _ =>
      omap (λ entry : string * option (gmap string string),
              match entry.2 with
              | Some metadata =>
                  if bool_decide (metadata !! "source" = Some source)
                  then Some entry.1 else None
              | None => None
              end)
           (zip (ids results) (metadatas results))
  | _, _ => []
  end.

Definition delete_documents_by_source (source : string) : V unit :=
  bind get_vector_store (λ vector_store,
  bind (call (GetCall vector_store) (collection_get vector_store)) (λ results,
  match ids_to_delete source results with
  | [] => ret tt
  | doc_ids =>
      call (DeleteCall vector_store doc_ids) (collection_delete vector_store doc_ids)
  end)).

Definition clear_all_documents : V unit :=
  bind get_vector_store (λ vector_store,
  bind (call (GetCall vector_store) (collection_get vector_store)) (λ results,
  match ids results with
  | [] => ret tt
  | doc_ids =>
      call (DeleteCall vector_store doc_ids) (collection_delete vector_store doc_ids)
  end)).

End Functions.
Arguments V H C A : clear implicits.

(** ** Properties of the cache and of the writes *)

(** The calls that set the store up. *)
Definition is_setup {H} (c : Call H) : bool :=
  match c with
  | MakeDirs _ | NewChroma _ => true
  | _ => false
  end.

(** The metadata names [source]. *)
Definition names_source (source : string) (metadata : option (gmap string string)) : Prop :=
  ∃ m, metadata = Some m ∧ m !! "source" = Some source.

#[local] Instance names_source_dec source metadata : Decision (names_source source metadata).
Proof.
  destruct metadata as [m|].
  - destruct (decide (m !! "source" = Some source)) as [Hs|Hs].
    + left. by exists m.
    + right. intros (m' & [= <-] & Hm). done.
  - right. intros (m' & [=] & _).
Defined.

Section Facts.
Context {H C : Type} `{!Chroma H C}.

Lemma store_call_run {A} (ev : outcome A → Call H) (method : C → outcome A * C) (s : State H C) :
  call ev method s
    = Run (method (database s)).1
          (Build_State (_vector_store s) (method (database s)).2)
          [ev (method (database s)).1].
Proof. unfold call. now destruct (method (database s)). Qed.

Lemma store_bind_returns {A B} (m : V H C A) (k : A → V H C B) s a :
  res (m s) = Returns a →
  bind m k s = Run (res (k a (after (m s)))) (after (k a (after (m s))))
                   (trace (m s) ++ trace (k a (after (m s)))).
Proof. intros Hm. unfold bind. now rewrite Hm. Qed.

Lemma store_bind_raises {A B} (m : V H C A) (k : A → V H C B) s e :
  res (m s) = Raises e →
  bind m k s = Run (Raises e) (after (m s)) (trace (m s)).
Proof. intros Hm. unfold bind. now rewrite Hm. Qed.

Lemma get_vector_store_hit (s : State H C) (h : H) :
  _vector_store s = Some h → get_vector_store s = Run (Returns h) s [].
Proof. intros Hs. unfold get_vector_store. now rewrite Hs. Qed.

(** Every run of [get_vector_store]: it makes set-up calls only; when it
    returns a handle, that handle is cached; when it raises, the cache is
    as before. *)
Lemma get_vector_store_run (s : State H C) :
  Forall (λ c, is_setup c = true) (trace (get_vector_store s))
  ∧ match res (get_vector_store s) with
    | Returns h => _vector_store (after (get_vector_store s)) = Some h
    | Raises _ => _vector_store (after (get_vector_store s)) = _vector_store s
    end.
Proof.
  unfold get_vector_store. destruct (_vector_store s) as [h|] eqn:Hs; simpl.
  { split; [constructor|done]. }
  unfold bind. rewrite store_call_run. simpl.
  destruct (makedirs (database s)).1; simpl; [|split; [repeat constructor|done]].
  unfold get_embeddings_model.
  destruct (Str.truthy OPENAI_API_KEY); simpl; [|split; [repeat constructor|done]].
  rewrite store_call_run. simpl.
  destruct (new_chroma _).1; simpl; split; repeat constructor; done.
Qed.

(** Once the store is there, [get_vector_store] gives the same handle
    again without any call and without changing anything; when the
    construction fails the cache stays empty, so the next call tries
    again. *)
Theorem get_vector_store_once (s : State H C) :
  match res (get_vector_store s) with
  | Returns h =>
      get_vector_store (after (get_vector_store s))
        = Run (Returns h) (after (get_vector_store s)) []
  | Raises _ =>
      _vector_store s = None
      ∧ _vector_store (after (get_vector_store s)) = None
  end.
Proof.
  pose proof (get_vector_store_run s) as [_ Hrun].
  destruct (res (get_vector_store s)) as [h|e] eqn:Hres.
  - now apply get_vector_store_hit.
  - destruct (_vector_store s) as [h|] eqn:Hs.
    + rewrite (get_vector_store_hit _ _ Hs) in Hres. discriminate.
    + now rewrite Hrun.
Qed.

(** [get_document_count] never raises.  Without a model credential the
    store cannot be constructed, so the count is 0 on every call: the
    directory is made, Chroma itself is never constructed or asked, and
    the cache stays empty. *)
Theorem get_document_count_without_key (s : State H C) :
  (∃ n, res (get_document_count s) = Returns n)
  ∧ (Str.truthy OPENAI_API_KEY = false →
     _vector_store s = None →
     res (get_document_count s) = Returns 0
     ∧ _vector_store (after (get_document_count s)) = None
     ∧ trace (get_document_count s) = [MakeDirs (makedirs (database s)).1]).
Proof.
  split.
  - unfold get_document_count, try_except.
    destruct (res (bind get_vector_store _ s)) eqn:Hres; simpl; eauto.
  - intros Hkey Hs. unfold get_document_count, try_except, bind, get_vector_store.
    rewrite Hs. unfold bind. rewrite store_call_run. simpl.
    destruct (makedirs (database s)).1; simpl.
    + unfold get_embeddings_model. rewrite Hkey. simpl. done.
    + done.
Qed.

(** An id is collected exactly when the metadata at its position names
    the source. *)
Lemma ids_to_delete_elem (source : string) (results : GetResult) (doc_id : string) :
  doc_id ∈ ids_to_delete source results ↔
    ∃ i metadata,
      ids results !! i = Some doc_id
      ∧ metadatas results !! i = Some (Some metadata)
      ∧ metadata !! "source" = Some source.
Proof.
  unfold ids_to_delete.
  destruct (ids results) as [|id0 ids'] eqn:Hids.
  { split; [intros Hin; now apply elem_of_nil in Hin|].
    intros (i & metadata & Hi & _). now rewrite lookup_nil in Hi. }
  destruct (metadatas results) as [|md0 mds'] eqn:Hmds.
  { split; [intros Hin; now apply elem_of_nil in Hin|].
    intros (i & metadata & _ & Hi & _). now rewrite lookup_nil in Hi. }
  rewrite list_elem_of_omap. split.
  - intros ([id md] & Hin & Hsel). simpl in Hsel.
    destruct md as [metadata|]; [|done].
    destruct (bool_decide (metadata !! "source" = Some source)) eqn:Hsrc; [|done].
    injection Hsel as ->. apply bool_decide_eq_true_1 in Hsrc.
    apply list_elem_of_lookup in Hin as [i Hi].
    rewrite lookup_zip_with in Hi.
    destruct ((id0 :: ids') !! i) as [id'|] eqn:Hid; [|done]. simpl in Hi.
    destruct ((md0 :: mds') !! i) as [md'|] eqn:Hmd; [|done]. simpl in Hi.
    injection Hi as -> ->. eauto.
  - intros (i & metadata & Hid & Hmd & Hsrc).
    exists (doc_id, Some metadata). split.
    + apply list_elem_of_lookup. exists i. rewrite lookup_zip_with, Hid, Hmd. done.
    + simpl. now rewrite bool_decide_eq_true_2.
Qed.

(** What [delete_documents_by_source] and [clear_all_documents] share:
    read the collection, pick ids, delete them unless there are none. *)
Definition delete_selected (pick : GetResult → list string) : V H C unit :=
  bind get_vector_store (λ vector_store,
  bind (call (GetCall vector_store) (collection_get vector_store)) (λ results,
  match pick results with
  | [] => ret tt
  | doc_ids =>
      call (DeleteCall vector_store doc_ids) (collection_delete vector_store doc_ids)
  end)).

Lemma delete_documents_by_source_picks (source : string) :
  delete_documents_by_source source = delete_selected (ids_to_delete source).
Proof. reflexivity. Qed.

Lemma clear_all_documents_picks : clear_all_documents = delete_selected ids.
Proof. reflexivity. Qed.

(** The calls of [delete_selected] after the set-up. *)
Lemma delete_selected_trace (pick : GetResult → list string) (s : State H C) :
  match res (get_vector_store s) with
  | Raises e => trace (delete_selected pick s) = trace (get_vector_store s)
  | Returns h =>
      ∃ reply,
        match reply with
        | Raises e =>
            trace (delete_selected pick s)
              = trace (get_vector_store s) ++ [GetCall h (Raises e)]
        | Returns results =>
            match pick results with
            | [] =>
                trace (delete_selected pick s)
                  = trace (get_vector_store s) ++ [GetCall h (Returns results)]
            | doc_ids =>
                ∃ deleted,
                  trace (delete_selected pick s)
                    = trace (get_vector_store s)
                      ++ [GetCall h (Returns results); DeleteCall h doc_ids deleted]
            end
        end
  end.
Proof.
  unfold delete_selected.
  destruct (res (get_vector_store s)) as [h|e] eqn:Hstore.
  - rewrite (store_bind_returns _ _ _ _ Hstore). cbn [trace].
    unfold bind. rewrite store_call_run. cbn [res after trace].
    exists (collection_get h (database (after (get_vector_store s)))).1.
    destruct (collection_get h _).1 as [results|e]; cbn [res trace]; [|done].
    destruct (pick results) as [|id0 rest]; cbn [trace]; [done|].
    rewrite store_call_run. cbn [trace]. eauto.
  - now rewrite (store_bind_raises _ _ _ _ Hstore).
Qed.

Lemma setup_not_delete (t : list (Call H)) h doc_ids reply :
  Forall (λ c, is_setup c = true) t → DeleteCall h doc_ids reply ∉ t.
Proof.
  intros Hall Hin. rewrite Forall_forall in Hall. apply Hall in Hin. discriminate.
Qed.

Lemma setup_not_get (t : list (Call H)) h reply :
  Forall (λ c, is_setup c = true) t → GetCall h reply ∉ t.
Proof.
  intros Hall Hin. rewrite Forall_forall in Hall. apply Hall in Hin. discriminate.
Qed.

Lemma delete_selected_calls (pick : GetResult → list string) (s : State H C) :
  (∀ h doc_ids deleted,
     DeleteCall h doc_ids deleted ∈ trace (delete_selected pick s) →
     doc_ids ≠ []
     ∧ ∃ results,
         GetCall h (Returns results) ∈ trace (delete_selected pick s)
         ∧ doc_ids = pick results)
  ∧ (∀ h results,
       GetCall h (Returns results) ∈ trace (delete_selected pick s) →
       pick results ≠ [] →
       ∃ deleted,
         DeleteCall h (pick results) deleted ∈ trace (delete_selected pick s)).
Proof.
  pose proof (get_vector_store_run s) as [Hsetup _].
  pose proof (delete_selected_trace pick s) as Hrun.
  destruct (res (get_vector_store s)) as [h0|e].
  2: { rewrite Hrun. split.
       - intros h doc_ids deleted Hin. now apply setup_not_delete in Hin.
       - intros h results Hin. now apply setup_not_get in Hin. }
  destruct Hrun as (reply & Hrun). destruct reply as [results0|e].
  2: { rewrite Hrun. split.
       - intros h doc_ids deleted Hin. apply elem_of_app in Hin as [Hin|Hin].
         + now apply setup_not_delete in Hin.
         + apply list_elem_of_singleton in Hin. discriminate.
       - intros h results Hin. apply elem_of_app in Hin as [Hin|Hin].
         + now apply setup_not_get in Hin.
         + apply list_elem_of_singleton in Hin. discriminate. }
  destruct (pick results0) as [|id0 rest] eqn:Hsel.
  - rewrite Hrun. split.
    + intros h doc_ids deleted Hin. apply elem_of_app in Hin as [Hin|Hin].
      * now apply setup_not_delete in Hin.
      * apply list_elem_of_singleton in Hin. discriminate.
    + intros h results Hin Hne. apply elem_of_app in Hin as [Hin|Hin].
      * now apply setup_not_get in Hin.
      * apply list_elem_of_singleton in Hin. injection Hin as -> ->. done.
  - destruct Hrun as (deleted0 & Hrun). rewrite Hrun. split.
    + intros h doc_ids deleted Hin. apply elem_of_app in Hin as [Hin|Hin].
      * now apply setup_not_delete in Hin.
      * apply elem_of_cons in Hin as [Hin|Hin]; [discriminate|].
        apply list_elem_of_singleton in Hin. injection Hin as -> -> ->.
        split; [done|]. exists results0. split; [|done].
        apply elem_of_app. right. left.
    + intros h results Hin Hne. apply elem_of_app in Hin as [Hin|Hin].
      * now apply setup_not_get in Hin.
      * apply elem_of_cons in Hin as [Hin|Hin].
        -- injection Hin as -> ->. rewrite Hsel. exists deleted0.
           apply elem_of_app. right. right. left.
        -- apply list_elem_of_singleton in Hin. discriminate.
Qed.

(** [delete_documents_by_source] asks the collection to delete only ids
    it has just read, exactly those whose metadata names the source, and
    it never asks with an empty list; when the read finds such ids the
    delete is asked for. *)
Theorem delete_documents_by_source_selects (source : string) (s : State H C) :
  (∀ h doc_ids deleted,
     DeleteCall h doc_ids deleted ∈ trace (delete_documents_by_source source s) →
     doc_ids ≠ []
     ∧ ∃ results,
         GetCall h (Returns results) ∈ trace (delete_documents_by_source source s)
         ∧ ∀ doc_id, doc_id ∈ doc_ids ↔
             ∃ i metadata,
               ids results !! i = Some doc_id
               ∧ metadatas results !! i = Some (Some metadata)
               ∧ metadata !! "source" = Some source)
  ∧ (∀ h results i doc_id metadata,
       GetCall h (Returns results) ∈ trace (delete_documents_by_source source s) →
       ids results !! i = Some doc_id →
       metadatas results !! i = Some (Some metadata) →
       metadata !! "source" = Some source →
       ∃ doc_ids deleted,
         DeleteCall h doc_ids deleted ∈ trace (delete_documents_by_source source s)
         ∧ doc_id ∈ doc_ids).
Proof.
  rewrite delete_documents_by_source_picks.
  destruct (delete_selected_calls (ids_to_delete source) s) as [Hsound Hcomplete].
  split.
  - intros h doc_ids deleted Hin.
    destruct (Hsound _ _ _ Hin) as (Hne & results & Hget & ->).
    split; [done|]. exists results. split; [done|].
    intros doc_id. apply ids_to_delete_elem.
  - intros h results i doc_id metadata Hget Hid Hmd Hsrc.
    assert (doc_id ∈ ids_to_delete source results) as Hsel.
    { apply ids_to_delete_elem. eauto. }
    destruct (Hcomplete _ _ Hget) as (deleted & Hdel).
    { intros Hnil. rewrite Hnil in Hsel. now apply elem_of_nil in Hsel. }
    eauto.
Qed.

(** [clear_all_documents] asks the collection to delete exactly the ids
    it has just read, and asks nothing of it when there are none. *)
Theorem clear_all_documents_deletes_all (s : State H C) :
  (∀ h doc_ids deleted,
     DeleteCall h doc_ids deleted ∈ trace (clear_all_documents s) →
     doc_ids ≠ []
     ∧ ∃ results,
         GetCall h (Returns results) ∈ trace (clear_all_documents s)
         ∧ doc_ids = ids results)
  ∧ (∀ h results,
       GetCall h (Returns results) ∈ trace (clear_all_documents s) →
       ids results ≠ [] →
       ∃ deleted, DeleteCall h (ids results) deleted ∈ trace (clear_all_documents s)).
Proof. rewrite clear_all_documents_picks. apply (delete_selected_calls ids). Qed.

Lemma filter_iff_in {A} (P Q : A → Prop)
    `{!∀ x, Decision (P x), !∀ x, Decision (Q x)} (l : list A) :
  (∀ x, x ∈ l → (P x ↔ Q x)) → filter P l = filter Q l.
Proof.
  induction l as [|a l IH]; [done|]. intros Hiff.
  assert (filter P l = filter Q l) as Hrest.
  { apply IH. intros x Hx. apply Hiff. now right. }
  destruct (decide (P a)) as [Hp|Hp].
  - rewrite !filter_cons_True; [by rewrite Hrest| |done].
    apply Hiff; [left|done].
  - rewrite !filter_cons_False; [done| |done].
    intros Hq. apply Hp. apply Hiff; [left|done].
Qed.

(** With unique ids, taking the collected ids out of the listing that
    was read removes the entries that name the source and no other. *)
Theorem ids_to_delete_exact (source : string) (results : GetResult) :
  NoDup (ids results) →
  filter (λ entry, entry.1 ∉ ids_to_delete source results)
         (zip (ids results) (metadatas results))
    = filter (λ entry, ¬ names_source source entry.2)
             (zip (ids results) (metadatas results)).
Proof.
  intros Hunique. apply filter_iff_in. intros [doc_id md] Hin. simpl.
  apply list_elem_of_lookup in Hin as [i Hi].
  apply lookup_zip_with_Some in Hi as (id' & md' & [= <- <-] & Hid & Hmd).
  rewrite ids_to_delete_elem. split.
  - intros Hnot (m & -> & Hsrc). apply Hnot. eauto.
  - intros Hnot (j & metadata & Hid' & Hmd' & Hsrc). apply Hnot.
    assert (j = i) as -> by (eapply NoDup_lookup; eauto).
    exists metadata. split; [congruence|done].
Qed.

Definition no_setup (t : list (Call H)) : Prop :=
  Forall (λ c, is_setup c = false) t.

Lemma delete_selected_cached (pick : GetResult → list string) (s : State H C) (h : H) :
  _vector_store s = Some h →
  _vector_store (after (delete_selected pick s)) = Some h
  ∧ no_setup (trace (delete_selected pick s)).
Proof.
  intros Hs. unfold delete_selected, bind.
  rewrite (get_vector_store_hit _ _ Hs). cbn [res after trace].
  rewrite store_call_run. cbn [res after trace].
  destruct (collection_get h (database s)).1 as [results|e]; cbn [res after trace].
  - destruct (pick results); cbn [after trace].
    + split; [done|repeat constructor].
    + rewrite store_call_run. cbn [after trace]. split; [done|repeat constructor].
  - split; [done|repeat constructor].
Qed.

(** The store is constructed at most once: with a handle in the cache,
    none of the functions of the module makes a set-up call, and each of
    them leaves that handle in the cache, whether it returns or raises. *)
Theorem cached_store_is_kept (s : State H C) (h : H)
    (documents : list Chunk) (source : string) :
  _vector_store s = Some h →
  (_vector_store (after (add_documents documents s)) = Some h
   ∧ no_setup (trace (add_documents documents s)))
  ∧ (_vector_store (after (get_document_count s)) = Some h
     ∧ no_setup (trace (get_document_count s)))
  ∧ (_vector_store (after (delete_documents_by_source source s)) = Some h
     ∧ no_setup (trace (delete_documents_by_source source s)))
  ∧ (_vector_store (after (clear_all_documents s)) = Some h
     ∧ no_setup (trace (clear_all_documents s))).
Proof.
  intros Hs. split; [|split; [|split]].
  - unfold add_documents, bind. rewrite (get_vector_store_hit _ _ Hs).
    cbn [res after trace]. rewrite store_call_run. cbn [after trace].
    split; [done|repeat constructor].
  - unfold get_document_count, try_except, bind.
    rewrite (get_vector_store_hit _ _ Hs). cbn [res after trace].
    rewrite store_call_run. cbn [res after trace].
    destruct (collection_count h (database s)).1; cbn [res after trace];
      (split; [done|repeat constructor]).
  - rewrite delete_documents_by_source_picks. now apply delete_selected_cached.
  - rewrite clear_all_documents_picks. now apply delete_selected_cached.
Qed.

End Facts.

(** ** A database in memory

    One handle, the entries as a list of id and metadata; it deletes by
    id and never raises.  It serves to run the functions. *)

Definition stored_metadata (chunk : Chunk) : gmap string string :=
  omap (λ v, match v with MStr s => Some s | MInt _ => None end) (chunk_metadata chunk).

#[local] Instance in_memory (key : string)
  : Chroma unit (list (string * option (gmap string string))) := {|
  OPENAI_API_KEY := key;
  makedirs := λ c, (Returns tt, c);
  new_chroma := λ c, (Returns tt, c);
  collection_count := λ _ c, (Returns (Z.of_nat (length c)), c);
  collection_get := λ _ c, (Returns {| ids := c.*1; metadatas := c.*2 |}, c);
  collection_delete := λ _ doc_ids c, (Returns tt, filter (λ entry, entry.1 ∉ doc_ids) c);
  store_add_documents := λ _ documents c,
    (Returns tt,
     c ++ imap (λ i chunk, ("doc-" +:+ Str.of_nat (length c + i),
                             Some (stored_metadata chunk))) documents)
|}.

Definition two_files : list (string * option (gmap string string)) :=
  [ ("1", Some {[ "source" := "a.pdf" ]});
    ("2", Some {[ "source" := "b.txt" ]});
    ("3", None);
    ("4", Some {[ "source" := "a.pdf" ]}) ].

Definition opened : State unit (list (string * option (gmap string string))) :=
  {| _vector_store := Some tt; database := two_files |}.

Definition two_files_read : GetResult :=
  {| ids := two_files.*1; metadatas := two_files.*2 |}.

Lemma ids_to_delete_exact_witness :
  filter (λ entry, entry.1 ∉ ids_to_delete "a.pdf" two_files_read)
         (zip (ids two_files_read) (metadatas two_files_read))
    = filter (λ entry, ¬ names_source "a.pdf" entry.2)
             (zip (ids two_files_read) (metadatas two_files_read)).
Proof.
  apply (ids_to_delete_exact "a.pdf" two_files_read). compute_done.
Defined.

Lemma cached_store_is_kept_witness :
  (_vector_store (after (@add_documents _ _ (in_memory "sk-test") [] opened)) = Some tt
   ∧ no_setup (trace (@add_documents _ _ (in_memory "sk-test") [] opened)))
  ∧ (_vector_store (after (@get_document_count _ _ (in_memory "sk-test") opened)) = Some tt
     ∧ no_setup (trace (@get_document_count _ _ (in_memory "sk-test") opened)))
  ∧ (_vector_store
       (after (@delete_documents_by_source _ _ (in_memory "sk-test") "a.pdf" opened))
       = Some tt
     ∧ no_setup
         (trace (@delete_documents_by_source _ _ (in_memory "sk-test") "a.pdf" opened)))
  ∧ (_vector_store (after (@clear_all_documents _ _ (in_memory "sk-test") opened))
       = Some tt
     ∧ no_setup (trace (@clear_all_documents _ _ (in_memory "sk-test") opened))).
Proof.
  apply (@cached_store_is_kept _ _ (in_memory "sk-test") opened tt [] "a.pdf").
  reflexivity.
Defined.

(** Deleting one file from the database in memory leaves the entries of
    the other files, and clearing leaves nothing. *)
Example delete_then_clear :
  database (after (@delete_documents_by_source _ _ (in_memory "sk-test") "a.pdf" opened))
    = [ ("2", Some {[ "source" := "b.txt" ]}); ("3", None) ]
  ∧ database (after (@clear_all_documents _ _ (in_memory "sk-test") opened)) = []
  ∧ res (@get_document_count _ _ (in_memory "sk-test")
           (after (@clear_all_documents _ _ (in_memory "sk-test") opened)))
      = Returns 0.
Proof. repeat split; vm_compute; reflexivity. Qed.

End VectorStore.

(** ** Concrete uploads *)

(** Toy stand-ins for the decoders and the splitter: the bytes as they
    are, two fixed pages, and a splitter that gives the text and a fixed
    tail. *)
Definition toy_decode (data : list Byte.byte) : outcome string :=
  Returns (String.string_of_list_byte data).

Definition toy_pages (data : list Byte.byte) : outcome (list string) :=
  Returns ["page one"; "page two"].

Definition toy_split (chunk_size chunk_overlap : Z) (text : string) : outcome (list string) :=
  Returns [text; "tail"].

Definition notes_upload : UploadedFile :=
  {| name := "Notes.TXT"; read := Returns (String.list_byte_of_string "hello") |}.

Definition archive_upload : UploadedFile :=
  {| name := "backup.tar.gz"; read := Raises (Exn OtherException "unreadable") |}.

Lemma process_uploaded_file_unsupported_witness :
  process_uploaded_file toy_decode toy_pages toy_split archive_upload
    = Raises (Exn ValueError ("Unsupported file type: " +:+ extension "backup.tar.gz")).
Proof.
  apply (process_uploaded_file_unsupported toy_decode toy_pages toy_split archive_upload).
  compute_done.
Defined.

Lemma chunk_text_metadata_witness :
  ∃ chunks,
    toy_split 10 2 "hello" = Returns chunks
    ∧ length [ {| chunk_content := "hello";
                  chunk_metadata := {[ "chunk_index" := MInt 0; "lang" := MStr "en" ]} |};
               {| chunk_content := "tail";
                  chunk_metadata := {[ "chunk_index" := MInt 1; "lang" := MStr "en" ]} |} ]
      = length chunks
    ∧ ∀ i doc,
        [ {| chunk_content := "hello";
             chunk_metadata := {[ "chunk_index" := MInt 0; "lang" := MStr "en" ]} |};
          {| chunk_content := "tail";
             chunk_metadata := {[ "chunk_index" := MInt 1; "lang" := MStr "en" ]} |} ]
          !! i = Some doc →
        chunks !! i = Some (chunk_content doc)
        ∧ chunk_metadata doc !! "chunk_index" = Some (MInt (Z.of_nat i))
        ∧ ∀ key, key ≠ "chunk_index" →
            chunk_metadata doc !! key
              = default ∅ (Some ({[ "chunk_index" := MInt 7; "lang" := MStr "en" ]}
                                  : gmap string meta)) !! key.
Proof.
  apply (chunk_text_metadata toy_split "hello" 10 2
           (Some {[ "chunk_index" := MInt 7; "lang" := MStr "en" ]})).
  vm_compute. reflexivity.
Defined.

Definition notes_chunks : list Chunk :=
  [ {| chunk_content := "hello";
       chunk_metadata := {[ "chunk_index" := MInt 0; "source" := MStr "Notes.TXT";
                            "file_type" := MStr ".txt" ]} |};
    {| chunk_content := "tail";
       chunk_metadata := {[ "chunk_index" := MInt 1; "source" := MStr "Notes.TXT";
                            "file_type" := MStr ".txt" ]} |} ].

Lemma process_uploaded_file_chunks_witness :
  extension (name notes_upload) ∈ [".pdf"; ".txt"; ".md"]
  ∧ ∃ text chunks,
      load_uploaded_file toy_decode toy_pages notes_upload = Returns text
      ∧ toy_split CHUNK_SIZE CHUNK_OVERLAP text = Returns chunks
      ∧ length notes_chunks = length chunks
      ∧ ∀ i chunk, chunks !! i = Some chunk →
          notes_chunks !! i
            = Some {| chunk_content := chunk;
                      chunk_metadata :=
                        {[ "chunk_index" := MInt (Z.of_nat i);
                           "source" := MStr (name notes_upload);
                           "file_type" := MStr (extension (name notes_upload)) ]} |}.
Proof.
  apply (process_uploaded_file_chunks toy_decode toy_pages toy_split notes_upload).
  vm_compute. reflexivity.
Defined.

(** * app.py: one turn of the chat

    The session state of [render_chat_interface] and the agent it calls;
    the Streamlit display calls, which read the values shown and leave
    the session state alone, are left out. *)

(** The cross mark that opens an error message, as the three bytes of
    its UTF-8 encoding; no character operation is applied to it. *)
Definition CROSS_MARK : string :=
  String (ascii_of_nat 226) (String (ascii_of_nat 157) (String (ascii_of_nat 140) EmptyString)).

Definition NO_RESPONSE : string := "I couldn't generate a response.".

Definition user_message (prompt : string) : gmap string value :=
  {[ "role" := VStr "user"; "content" := VStr prompt ]}.

Section App.
Context {W : Type} `{!Runtime W}.

(** [mode] is [st.session_state.mode], [messages] is
    [st.session_state.messages] and [chat_input] is what
    [st.chat_input(...)] gives; the result is the new list of messages. *)
Definition render_chat_interface (mode : string) (messages : list (gmap string value))
    (chat_input : option string) : M W (list (gmap string value)) :=
  match chat_input with
  | Some (String c rest as prompt) =>
      let messages := messages ++ [user_message prompt] in
      try_except
        (result <- (if String.eqb mode "rag" then query_rag prompt TOP_K_RESULTS
                    else if String.eqb mode "web" then search_web prompt
                    else query_hybrid prompt true) ;;
         let answer := default (VStr NO_RESPONSE) (result !! "answer") in
         let sources := default (VNames []) (result !! "sources") in
         let used_mode := default (VStr mode) (result !! "mode") in
         ret (messages ++ [ {[ "role" := VStr "assistant";
                               "content" := answer;
                               "sources" := sources;
                               "mode" := used_mode ]} ]))
        (λ e,
           let error_msg := CROSS_MARK +:+ " Error: " +:+ exn_msg e in
           ret (messages ++ [ {[ "role" := VStr "assistant";
                                 "content" := VStr error_msg;
                                 "sources" := VNames [] ]} ]))
  | _ => ret messages
  end.

(** The agent a mode stands for. *)
Definition agent (mode prompt : string) : M W (gmap string value) :=
  if String.eqb mode "rag" then query_rag prompt TOP_K_RESULTS
  else if String.eqb mode "web" then search_web prompt
  else query_hybrid prompt true.

Lemma render_chat_interface_run (mode : string) (messages : list (gmap string value))
    (prompt : string) (w : W) :
  Str.truthy prompt = true →
  render_chat_interface mode messages (Some prompt) w
    = Run (Returns
             (messages ++ [user_message prompt]
              ++ [match res (agent mode prompt w) with
                  | Returns result =>
                      {[ "role" := VStr "assistant";
                         "content" := default (VStr NO_RESPONSE) (result !! "answer");
                         "sources" := default (VNames []) (result !! "sources");
                         "mode" := default (VStr mode) (result !! "mode") ]}
                  | Raises e =>
                      {[ "role" := VStr "assistant";
                         "content" := VStr (CROSS_MARK +:+ " Error: " +:+ exn_msg e);
                         "sources" := VNames [] ]}
                  end]))
          (after (agent mode prompt w)) (trace (agent mode prompt w)).
Proof.
  intros Hprompt. destruct prompt as [|c rest]; [done|].
  unfold render_chat_interface, try_except, bind. fold (agent mode (String c rest)).
  destruct (res (agent mode (String c rest) w)); simpl;
    rewrite app_nil_r, <- app_assoc; reflexivity.
Qed.

(** No exception of the agent leaves a turn.  For a non-empty prompt it
    keeps the history and appends exactly two messages, the user's prompt
    and one assistant message, and makes the calls of the one agent the
    mode stands for; without a prompt nothing changes and nothing is
    called. *)
Theorem render_chat_interface_appends (mode : string)
    (messages : list (gmap string value)) (chat_input : option string) (w : W) :
  match chat_input with
  | Some (String c rest as prompt) =>
      ∃ reply,
        res (render_chat_interface mode messages chat_input w)
          = Returns (messages ++ [user_message prompt; reply])
        ∧ reply !! "role" = Some (VStr "assistant")
        ∧ trace (render_chat_interface mode messages chat_input w)
            = trace (agent mode prompt w)
  | _ =>
      render_chat_interface mode messages chat_input w = Run (Returns messages) w []
  end.
Proof.
  destruct chat_input as [[|c rest]|]; [done| |done].
  rewrite render_chat_interface_run by done. cbn [res trace].
  eexists. split; [reflexivity|]. split; [|done].
  destruct (res (agent mode (String c rest) w)); reflexivity.
Qed.

Lemma query_hybrid_shape (question : string) (auto_route : bool) (w : W)
    (d : gmap string value) :
  res (query_hybrid question auto_route w) = Returns d →
  ∃ answer sources used,
    d !! "answer" = Some (VStr answer)
    ∧ d !! "sources" = Some sources
    ∧ d !! "mode" = Some (VStr used)
    ∧ used ∈ ROUTES.
Proof.
  assert (Hfusion : ∀ n w' d',
             res (hybrid_mode question n w') = Returns d' →
             ∃ answer sources used,
               d' !! "answer" = Some (VStr answer)
               ∧ d' !! "sources" = Some sources
               ∧ d' !! "mode" = Some (VStr used)
               ∧ used ∈ ROUTES).
  { intros n w' d' Hd'.
    destruct (hybrid_mode_cites _ _ _ _ Hd') as (answer & names & sources & Ha & Hs & Hm & _).
    exists answer, (VDicts ((document_entry <$> names) ++ (web_entry <$> sources))), "hybrid".
    repeat split; try done. unfold ROUTES. do 2 right. left. }
  unfold query_hybrid.
  rewrite (bind_returns _ _ _ _ (get_document_count_res w)). cbn [res after trace].
  destruct auto_route; [|apply Hfusion].
  unfold bind at 1.
  destruct (res (route_query question _)) as [route|e]; cbn [res]; [|done].
  destruct (String.eqb route "documents"); [|destruct (String.eqb route "web")].
  - unfold bind. destruct (res (query_rag _ _ _)) as [result|e] eqn:Hrag; cbn [res]; [|done].
    intros [= <-].
    destruct (query_rag_returns _ _ _ _ Hrag);
      eexists _, _, "documents"; (repeat split; [reflexivity..|unfold ROUTES; left]).
  - unfold bind. destruct (res (search_web _ _)) as [result|e] eqn:Hweb; cbn [res]; [|done].
    intros [= <-].
    destruct (search_web_returns _ _ _ Hweb);
      eexists _, _, "web"; (repeat split; [reflexivity..|unfold ROUTES; right; left]).
  - apply Hfusion.
Qed.

(** What the assistant message of a turn holds.  When the agent raised:
    the cross mark, " Error: " and the message of the exception as
    content, no sources and no mode.  When it returned: its answer and
    its sources, and as mode "rag" in rag mode and "web" in web mode,
    since these agents set none, and in any other mode the route the
    hybrid agent took. *)
Theorem render_chat_interface_reply (mode prompt : string)
    (messages : list (gmap string value)) (w : W) :
  Str.truthy prompt = true →
  ∃ reply,
    res (render_chat_interface mode messages (Some prompt) w)
      = Returns (messages ++ [user_message prompt; reply])
    ∧ match res (agent mode prompt w) with
      | Raises e =>
          reply = {[ "role" := VStr "assistant";
                     "content" := VStr (CROSS_MARK +:+ " Error: " +:+ exn_msg e);
                     "sources" := VNames [] ]}
      | Returns result =>
          ∃ answer sources used,
            result !! "answer" = Some (VStr answer)
            ∧ result !! "sources" = Some sources
            ∧ reply = {[ "role" := VStr "assistant";
                         "content" := VStr answer;
                         "sources" := sources;
                         "mode" := VStr used ]}
            ∧ (mode = "rag" → used = "rag")
            ∧ (mode = "web" → used = "web")
            ∧ (mode ≠ "rag" → mode ≠ "web" →
               result !! "mode" = Some (VStr used) ∧ used ∈ ROUTES)
      end.
Proof.
  intros Hprompt. rewrite render_chat_interface_run by done. cbn [res].
  eexists. split; [reflexivity|].
  destruct (res (agent mode prompt w)) as [result|e] eqn:Hagent; [|done].
  unfold agent in Hagent.
  destruct (String.eqb_spec mode "rag") as [->|Hrag].
  { destruct (query_rag_returns _ _ _ _ Hagent);
      eexists _, _, "rag"; repeat split; done. }
  destruct (String.eqb_spec mode "web") as [->|Hweb].
  { destruct (search_web_returns _ _ _ Hagent);
      eexists _, _, "web"; repeat split; done. }
  destruct (query_hybrid_shape _ _ _ _ Hagent) as (answer & sources & used & Ha & Hs & Hm & Hroute).
  exists answer, sources, used. rewrite Ha, Hs, Hm. repeat split; done.
Qed.

End App.

Lemma render_chat_interface_reply_witness :
  ∃ reply,
    res (@render_chat_interface unit (scripted timed_out) "web" []
           (Some "what changed?") tt)
      = Returns ([] ++ [user_message "what changed?"; reply])
    ∧ match res (@agent unit (scripted timed_out) "web" "what changed?" tt) with
      | Raises e =>
          reply = {[ "role" := VStr "assistant";
                     "content" := VStr (CROSS_MARK +:+ " Error: " +:+ exn_msg e);
                     "sources" := VNames [] ]}
      | Returns result =>
          ∃ answer sources used,
            result !! "answer" = Some (VStr answer)
            ∧ result !! "sources" = Some sources
            ∧ reply = {[ "role" := VStr "assistant";
                         "content" := VStr answer;
                         "sources" := sources;
                         "mode" := VStr used ]}
            ∧ ("web" = "rag" → used = "rag")
            ∧ ("web" = "web" → used = "web")
            ∧ ("web" ≠ "rag" → "web" ≠ "web" →
               result !! "mode" = Some (VStr used) ∧ used ∈ ROUTES)
      end.
Proof.
  apply (@render_chat_interface_reply unit (scripted timed_out) "web" "what changed?" [] tt).
  reflexivity.
Defined.

(** In hybrid mode over the working script the turn records the
    documents route; a failed search in web mode is shown as an error. *)
Example chat_turn_examples :
  (∃ reply,
     res (@render_chat_interface unit (scripted (working "documents")) "hybrid" []
            (Some "what changed?") tt)
       = Returns [user_message "what changed?"; reply]
     ∧ reply !! "mode" = Some (VStr "documents")
     ∧ reply !! "sources" = Some (VNames ["b.txt"; "a.pdf"]))
  ∧ (∃ reply,
       res (@render_chat_interface unit (scripted timed_out) "web" []
              (Some "what changed?") tt)
         = Returns [user_message "what changed?"; reply]
       ∧ reply !! "content"
           = Some (VStr (CROSS_MARK
                         +:+ " Error: Serper API request failed: connection timed out"))
       ∧ reply !! "mode" = None).
Proof. split; eexists; repeat split; vm_compute; reflexivity. Qed.
